(** * Witness-Interview-Simulator: the session state machine of [src/App.tsx]

    The component [App] keeps nine pieces of React state and three
    asynchronous handlers ([startSimulation], [handleSendMessage],
    [endInterview]).  Every handler is embedded as the part that runs up to
    its [await] (it returns the external call it issued) and the part that
    runs once the awaited promise has settled.  A [setX v] of React is a
    write of the field [X] of the store; a handler reads the store of the
    render it was created in, and the values it keeps across the [await]
    (its closure) are carried by the second part as arguments. *)

From Stdlib Require Import String Ascii List ZArith Bool Arith Lia.
Import ListNotations.
Local Open Scope string_scope.
Local Open Scope list_scope.

(** ** JavaScript strings: [trim] and [toLowerCase]

    A character is a UTF-16 code unit below 256, that is a code point of
    Basic Latin or of the Latin-1 Supplement, held in an [ascii] by its
    number.  On these strings the two builtins are modelled exactly, as
    ECMAScript defines them: [trim] strips the white space and the line
    terminators (of which TAB, LF, VT, FF, CR, SPACE and NO-BREAK SPACE lie
    below 256), and [toLowerCase] maps A to Z and the capital letters of
    Latin-1 (U+00C0 to U+00DE but for the multiplication sign U+00D7) to
    their small letters and leaves every other character alone.  A string
    with a code unit from 256 on is not in the model. *)

Module JsString.

Definition is_upper (c : ascii) : bool :=
  let n := nat_of_ascii c in
  (((65 <=? n) && (n <=? 90))
   || ((192 <=? n) && (n <=? 214))
   || ((216 <=? n) && (n <=? 222)))%nat.

Definition lower_char (c : ascii) : ascii :=
  if is_upper c then ascii_of_nat (nat_of_ascii c + 32) else c.

Fixpoint toLowerCase (s : string) : string :=
  match s with
  | EmptyString => EmptyString
  | String c s' => String (lower_char c) (toLowerCase s')
  end.

(** White space and line terminators below 256: TAB, LF, VT, FF, CR (9 to
    13), SPACE (32) and NO-BREAK SPACE (U+00A0, 160).  NEXT LINE (U+0085)
    is neither and is not stripped. *)
Definition is_space (c : ascii) : bool :=
  let n := nat_of_ascii c in
  (((9 <=? n) && (n <=? 13)) || (n =? 32) || (n =? 160))%nat.

Fixpoint trimStart (s : string) : string :=
  match s with
  | EmptyString => EmptyString
  | String c s' => if is_space c then trimStart s' else s
  end.

Fixpoint rev (s : string) : string :=
  match s with
  | EmptyString => EmptyString
  | String c s' => (rev s' ++ String c EmptyString)%string
  end.

Definition trimEnd (s : string) : string := rev (trimStart (rev s)).

Definition trim (s : string) : string := trimEnd (trimStart s).

(** Truthiness of a string: only the empty string is falsy. *)
Definition truthy (s : string) : bool :=
  match s with EmptyString => false | String _ _ => true end.

Fixpoint all_space (s : string) : bool :=
  match s with
  | EmptyString => true
  | String c s' => is_space c && all_space s'
  end.

(** [xs.join(sep)] on an array of strings. *)
Fixpoint join (sep : string) (xs : list string) : string :=
  match xs with
  | [] => ""
  | [x] => x
  | x :: rest => (x ++ sep ++ join sep rest)%string
  end.

End JsString.

(** ** JavaScript values, as [JSON.parse] and property reads produce them

    The fields of a [JObj] are the own properties of the object, each name
    once; the code stores numbers and never computes with them. *)

Set Warnings "-register-all".

Inductive jsval : Type :=
| JUndefined
| JNull
| JBool (b : bool)
| JNum (n : Z)
| JStr (s : string)
| JArr (items : list jsval)
| JObj (fields : list (string * jsval)).

Inductive exn : Type :=
| Rejection (reason : string)   (* a rejected promise or a throwing SDK call *)
| SyntaxError                   (* JSON.parse on text that is not JSON *)
| TypeError.                    (* a property read on null or undefined *)

Fixpoint own_property (k : string) (fields : list (string * jsval)) : jsval :=
  match fields with
  | [] => JUndefined
  | (k', v) :: rest => if String.eqb k k' then v else own_property k rest
  end.

(** [v.k] for a name [k] that no prototype defines (the three names the
    handler reads): a throw on [null] and [undefined], the own property of
    an object, and [undefined] on every other value. *)
Definition prop (v : jsval) (k : string) : exn + jsval :=
  match v with
  | JUndefined | JNull => inl TypeError
  | JObj fields => inr (own_property k fields)
  | _ => inr JUndefined
  end.

(** ** The data model of [./types] as [App.tsx] uses it *)

Inductive Difficulty : Type := BEGINNER | INTERMEDIATE | ADVANCED | CRISIS.

(** Modelled from the spec: the string values of the [Difficulty] enum, which
    is declared in [./types] (not part of src/); the spec names the tiers
    Beginner, Intermediate, Advanced and Crisis. *)
Definition Difficulty_value (d : Difficulty) : string :=
  match d with
  | BEGINNER => "Beginner"
  | INTERMEDIATE => "Intermediate"
  | ADVANCED => "Advanced"
  | CRISIS => "Crisis"
  end.

(** Modelled from the spec: the members of the [InterviewPhase] enum of
    [./types]; the code itself only names [InterviewPhase.RAPPORT]. *)
Definition InterviewPhase_values : list string :=
  ["Rapport"; "Probing"; "Confrontation"; "Closing"].

Definition InterviewPhase_RAPPORT : jsval := JStr "Rapport".

(** The fields of a scenario that [App.tsx] reads.  The two hidden fields are
    read through [(newScenario as any)] and may be missing. *)
Record Scenario : Type := {
  investigationType : string;
  companyBackground : string;
  jurisdiction : string;
  regulatoryExposure : string;
  witnessRole : string;
  witnessArchetype : string;
  witnessIntroduction : string;
  documentUniverse : string;
  hiddenGroundTruth : option string;
  keyRiskNodes : option (list string)
}.

Inductive Role : Type := user | model.

(** A transcript entry.  [phase] and [hiddenState] are [None] when the object
    literal does not have the property, and [Some v] when it does (also when
    [v] is [undefined]). *)
Record Message : Type := {
  role : Role;
  text : jsval;
  phase : option jsval;
  hiddenState : option jsval
}.

Record FinalReport : Type := {
  timelineReconstructionScore : Z;
  contradictionIdentificationScore : Z;
  riskEscalationAwareness : Z;
  interviewControlAssessment : Z;
  behavioralAnalysis : string;
  legalExposureAnalysis : string;
  missedFollowUps : list string;
  improvedQuestioningPaths : list string
}.

(** The chat object of [ai.chats.create]: the configuration it was made with. *)
Record Chat : Type := {
  chat_model : string;
  systemInstruction : string;
  responseMimeType : string
}.

(** The React state of [App] (lines 8 to 16). *)
Record AppState : Type := {
  difficulty : option Difficulty;
  scenario : option Scenario;
  messages : list Message;
  inputValue : string;
  isGenerating : bool;
  chatSession : option Chat;
  finalReport : option FinalReport;
  latestState : jsval;
  currentPhase : jsval
}.

Definition initialState : AppState := {|
  difficulty := None;
  scenario := None;
  messages := [];
  inputValue := "";
  isGenerating := false;
  chatSession := None;
  finalReport := None;
  latestState := JNull;
  currentPhase := InterviewPhase_RAPPORT
|}.

(** ** Handlers: a state, exception and log monad

    A handler step reads and writes the store, may throw, and may leave a
    trace for the user ([alert]) or for the developer console
    ([console.error]). *)

Inductive Event : Type :=
| Alert (msg : string)
| ConsoleError (msg : string).

Definition Handler (A : Type) : Type :=
  AppState -> (exn + A) * AppState * list Event.

Definition ret {A} (a : A) : Handler A := fun s => (inr a, s, []).

Definition throw {A} (e : exn) : Handler A := fun s => (inl e, s, []).

Definition bind {A B} (m : Handler A) (f : A -> Handler B) : Handler B :=
  fun s =>
    match m s with
    | (inl e, s1, l1) => (inl e, s1, l1)
    | (inr a, s1, l1) =>
        match f a s1 with
        | (r, s2, l2) => (r, s2, l1 ++ l2)
        end
    end.

Declare Scope handler_scope.
Delimit Scope handler_scope with handler.
Notation "x <- m ;; k" := (bind m (fun x => k))
  (at level 61, m at next level, right associativity) : handler_scope.
Notation "m ;; k" := (bind m (fun _ => k))
  (at level 61, right associativity) : handler_scope.
Local Open Scope handler_scope.

(** [try { body } catch (error) { handler error } finally { fin }]. *)
Definition try_catch_finally {A} (body : Handler A) (handler : exn -> Handler A)
    (fin : Handler unit) : Handler A :=
  fun s =>
    let '(r1, s1, l1) :=
      match body s with
      | (inl e, s1, l1) =>
          match handler e s1 with
          | (r, s2, l2) => (r, s2, l1 ++ l2)
          end
      | done => done
      end in
    match fin s1 with
    | (inl e, s2, l2) => (inl e, s2, l1 ++ l2)
    | (inr _, s2, l2) => (r1, s2, l1 ++ l2)
    end.

Definition lift {A} (r : exn + A) : Handler A := fun s => (r, s, []).

Definition read {A} (f : AppState -> A) : Handler A := fun s => (inr (f s), s, []).

Definition alert (msg : string) : Handler unit := fun s => (inr tt, s, [Alert msg]).

Definition console_error (msg : string) : Handler unit :=
  fun s => (inr tt, s, [ConsoleError msg]).

(** The state setters of lines 8 to 16. *)
Definition setDifficulty (v : option Difficulty) : Handler unit := fun s =>
  (inr tt, {| difficulty := v; scenario := scenario s; messages := messages s;
              inputValue := inputValue s; isGenerating := isGenerating s;
              chatSession := chatSession s; finalReport := finalReport s;
              latestState := latestState s; currentPhase := currentPhase s |}, []).

Definition setScenario (v : option Scenario) : Handler unit := fun s =>
  (inr tt, {| difficulty := difficulty s; scenario := v; messages := messages s;
              inputValue := inputValue s; isGenerating := isGenerating s;
              chatSession := chatSession s; finalReport := finalReport s;
              latestState := latestState s; currentPhase := currentPhase s |}, []).

Definition setMessages (v : list Message) : Handler unit := fun s =>
  (inr tt, {| difficulty := difficulty s; scenario := scenario s; messages := v;
              inputValue := inputValue s; isGenerating := isGenerating s;
              chatSession := chatSession s; finalReport := finalReport s;
              latestState := latestState s; currentPhase := currentPhase s |}, []).

Definition setInputValue (v : string) : Handler unit := fun s =>
  (inr tt, {| difficulty := difficulty s; scenario := scenario s; messages := messages s;
              inputValue := v; isGenerating := isGenerating s;
              chatSession := chatSession s; finalReport := finalReport s;
              latestState := latestState s; currentPhase := currentPhase s |}, []).

Definition setIsGenerating (v : bool) : Handler unit := fun s =>
  (inr tt, {| difficulty := difficulty s; scenario := scenario s; messages := messages s;
              inputValue := inputValue s; isGenerating := v;
              chatSession := chatSession s; finalReport := finalReport s;
              latestState := latestState s; currentPhase := currentPhase s |}, []).

Definition setChatSession (v : option Chat) : Handler unit := fun s =>
  (inr tt, {| difficulty := difficulty s; scenario := scenario s; messages := messages s;
              inputValue := inputValue s; isGenerating := isGenerating s;
              chatSession := v; finalReport := finalReport s;
              latestState := latestState s; currentPhase := currentPhase s |}, []).

Definition setFinalReport (v : option FinalReport) : Handler unit := fun s =>
  (inr tt, {| difficulty := difficulty s; scenario := scenario s; messages := messages s;
              inputValue := inputValue s; isGenerating := isGenerating s;
              chatSession := chatSession s; finalReport := v;
              latestState := latestState s; currentPhase := currentPhase s |}, []).

Definition setLatestState (v : jsval) : Handler unit := fun s =>
  (inr tt, {| difficulty := difficulty s; scenario := scenario s; messages := messages s;
              inputValue := inputValue s; isGenerating := isGenerating s;
              chatSession := chatSession s; finalReport := finalReport s;
              latestState := v; currentPhase := currentPhase s |}, []).

Definition setCurrentPhase (v : jsval) : Handler unit := fun s =>
  (inr tt, {| difficulty := difficulty s; scenario := scenario s; messages := messages s;
              inputValue := inputValue s; isGenerating := isGenerating s;
              chatSession := chatSession s; finalReport := finalReport s;
              latestState := latestState s; currentPhase := v |}, []).

(** ** The external collaborator

    A call that a handler awaits, and how the awaited promise settles. *)

Inductive Call : Type :=
| generateScenario (diff : Difficulty)
| sendMessage (chat : Chat) (message : string)
| generateFeedback (msgs : list Message) (sc : option Scenario).

Inductive Settled (A : Type) : Type :=
| Fulfilled (v : A)
| Rejected (e : exn).
Arguments Fulfilled {A} v.
Arguments Rejected {A} e.

(** [await p]: the value of a fulfilled promise, a throw for a rejected one. *)
Definition await {A} (p : Settled A) : Handler A :=
  match p with
  | Fulfilled v => ret v
  | Rejected e => throw e
  end.

(** [JSON.parse(response.text)] is a builtin: a response comes with what the
    builtin makes of its text, a value or a [SyntaxError]. *)
Record Response : Type := { parsed_text : exn + jsval }.

Definition JSON_parse (response : Response) : Handler jsval :=
  lift (parsed_text response).

(** What the SDK does at lines 33 and 53: [new GoogleGenAI] and
    [ai.chats.create] build a chat, or throw. *)
Definition SdkBehaviour : Type := option exn.

Definition chats_create (sdk : SdkBehaviour) (config : Chat) : Handler Chat :=
  match sdk with
  | None => ret config
  | Some e => throw e
  end.

(** ** The handlers of [App] *)

Import JsString.

Definition nl : string := String (ascii_of_nat 10) EmptyString.

(** [`${v}`] for a value that may be missing. *)
Definition interpolate (v : option string) : string :=
  match v with
  | Some t => t
  | None => "undefined"
  end.

(** The last two lines of the template literal of lines 34 to 51. *)
Definition INITIAL_STATE_LINES : string :=
  ("        INITIAL STATE:" ++ nl ++
   "        Truthfulness: 70, Stress: 10, Defensiveness: 20, Cooperation: 80, Memory: 90, Exposure: 5, Legal Risk: 0." ++ nl)%string.

Section Handlers.

(** The prompt text exported by [./services/geminiService]. *)
Variable SYSTEM_INSTRUCTION_BASE : string.

Definition systemPrompt (newScenario : Scenario) (diff : Difficulty) : string :=
  (nl ++
   "        " ++ SYSTEM_INSTRUCTION_BASE ++ nl ++
   "        " ++ nl ++
   "        SCENARIO CONTEXT:" ++ nl ++
   "        Type: " ++ investigationType newScenario ++ nl ++
   "        Company: " ++ companyBackground newScenario ++ nl ++
   "        Jurisdiction: " ++ jurisdiction newScenario ++ nl ++
   "        Exposure: " ++ regulatoryExposure newScenario ++ nl ++
   "        Witness Role: " ++ witnessRole newScenario ++ nl ++
   "        Witness Archetype: " ++ witnessArchetype newScenario ++ nl ++
   "        Ground Truth (HIDDEN FROM USER): "
     ++ interpolate (hiddenGroundTruth newScenario) ++ nl ++
   "        Risk Nodes: "
     ++ interpolate (option_map (join ", ") (keyRiskNodes newScenario)) ++ nl ++
   "        " ++ nl ++
   "        DIFFICULTY LEVEL: " ++ Difficulty_value diff ++ nl ++
   "        " ++ nl ++
   INITIAL_STATE_LINES ++
   "      ")%string.

(** What a suspended handler keeps across its [await]: the call it made
    and the variables of its closure that the rest of its body reads. *)
Inductive Suspended : Type :=
| Suspended_start (diff : Difficulty)
| Suspended_send (chat : Chat) (userText : string) (newMessages : list Message)
| Suspended_end (msgs : list Message) (sc : option Scenario).

Definition call_of (k : Suspended) : Call :=
  match k with
  | Suspended_start diff => generateScenario diff
  | Suspended_send chat userText _ => sendMessage chat userText
  | Suspended_end msgs sc => generateFeedback msgs sc
  end.

(** Lines 26 to 30, up to the [await]. *)
Definition startSimulation (diff : Difficulty) : Handler Suspended :=
  setIsGenerating true ;;
  setDifficulty (Some diff) ;;
  ret (Suspended_start diff).

(** Lines 30 to 71, from the settled [generateScenario(diff)] on. *)
Definition startSimulation_resumed (diff : Difficulty)
    (generated : Settled Scenario) (sdk : SdkBehaviour) : Handler unit :=
  try_catch_finally
    (newScenario <- await generated ;;
     setScenario (Some newScenario) ;;
     chat <- chats_create sdk
               {| chat_model := "gemini-3-pro-preview";
                  systemInstruction := systemPrompt newScenario diff;
                  responseMimeType := "application/json" |} ;;
     setChatSession (Some chat) ;;
     setMessages [ {| role := model;
                      text := JStr (witnessIntroduction newScenario);
                      phase := None; hiddenState := None |} ])
    (fun error =>
       console_error "Error starting simulation:" ;;
       alert "Failed to initialize simulation. Please check your connection.")
    (setIsGenerating false).

(** Lines 109 to 112, up to the [await]. *)
Definition endInterview : Handler Suspended :=
  msgs <- read messages ;;
  sc <- read scenario ;;
  setIsGenerating true ;;
  ret (Suspended_end msgs sc).

(** Lines 112 to 118, from the settled [generateFeedback] on. *)
Definition endInterview_resumed (generated : Settled FinalReport) : Handler unit :=
  try_catch_finally
    (report <- await generated ;;
     setFinalReport (Some report))
    (fun error => console_error "Error generating report:")
    (setIsGenerating false).

Definition is_some {A} (o : option A) : bool :=
  match o with Some _ => true | None => false end.

Definition user_message (userText : string) : Message :=
  {| role := user; text := JStr userText; phase := None; hiddenState := None |}.

Definition fallback_message : Message :=
  {| role := model;
     text := JStr "I'm sorry, I'm having trouble processing that question.";
     phase := None; hiddenState := None |}.

(** Lines 74 to 89, up to the [await]; [None] when no call is made. *)
Definition handleSendMessage : Handler (option Suspended) :=
  input <- read inputValue ;;
  session <- read chatSession ;;
  busy <- read isGenerating ;;
  msgs <- read messages ;;
  if negb (truthy (trim input)) || negb (is_some session) || busy then ret None
  else
    let userText := input in
    if String.eqb (toLowerCase userText) "end interview" then
      k <- endInterview ;;
      ret (Some k)
    else
      setInputValue "" ;;
      let newMessages := msgs ++ [user_message userText] in
      setMessages newMessages ;;
      setIsGenerating true ;;
      match session with
      | Some chat => ret (Some (Suspended_send chat userText newMessages))
      | None => ret None
      end.

(** Lines 89 to 106, from the settled [chatSession.sendMessage] on. *)
Definition handleSendMessage_resumed (newMessages : list Message)
    (sent : Settled Response) : Handler unit :=
  try_catch_finally
    (response <- await sent ;;
     data <- JSON_parse response ;;
     updatedState <- lift (prop data "updatedState") ;;
     setLatestState updatedState ;;
     reported <- lift (prop data "currentPhase") ;;
     setCurrentPhase reported ;;
     witnessResponse <- lift (prop data "witnessResponse") ;;
     phase' <- lift (prop data "currentPhase") ;;
     hiddenState' <- lift (prop data "updatedState") ;;
     setMessages (newMessages ++
                    [ {| role := model; text := witnessResponse;
                         phase := Some phase';
                         hiddenState := Some hiddenState' |} ]))
    (fun error =>
       console_error "Error sending message:" ;;
       setMessages (newMessages ++ [fallback_message]))
    (setIsGenerating false).

(** ** The view (lines 121 to 292): which screen is shown, and which
    controls of it are disabled. *)

Inductive Screen : Type :=
| FinalReportView (report : FinalReport)
| SetupScreen (difficulty_buttons_disabled : bool)
| LiveScreen (send_button_disabled : bool) (end_button_disabled : bool).

Definition render (s : AppState) : Screen :=
  match finalReport s with
  | Some report => FinalReportView report
  | None =>
      match difficulty s with
      | None => SetupScreen (isGenerating s)
      | Some _ => LiveScreen (isGenerating s) false
      end
  end.

(** The three states of the session state machine, read off the screen. *)
Inductive MachineState : Type := Uninitialized | Active | Concluded.

Definition machine_state (s : AppState) : MachineState :=
  match render s with
  | FinalReportView _ => Concluded
  | SetupScreen _ => Uninitialized
  | LiveScreen _ _ => Active
  end.

(** What the user can do, and the handler each control is wired to. *)
Inductive UiEvent : Type :=
| ClickDifficulty (diff : Difficulty)
| ChangeInput (value : string)
| PressEnter
| ClickSend
| ClickEndInterview
| ClickStartNewSession.

Definition dispatch (ev : UiEvent) : Handler (option Suspended) :=
  fun s =>
    match render s, ev with
    | SetupScreen disabled, ClickDifficulty diff =>
        if disabled then ret None s
        else (k <- startSimulation diff ;; ret (Some k)) s
    | LiveScreen _ _, ChangeInput value =>
        (setInputValue value ;; ret None) s
    | LiveScreen _ _, PressEnter => handleSendMessage s
    | LiveScreen disabled _, ClickSend =>
        if disabled then ret None s else handleSendMessage s
    | LiveScreen _ disabled, ClickEndInterview =>
        if disabled then ret None s
        else (k <- endInterview ;; ret (Some k)) s
    | FinalReportView _, ClickStartNewSession => (inr None, initialState, [])
    | _, _ => ret None s
    end.

End Handlers.

(** ** Sample data and the operations of the spec *)

Definition sample_scenario : Scenario := {|
  investigationType := "Internal fraud inquiry";
  companyBackground := "A regional logistics firm";
  jurisdiction := "Delaware";
  regulatoryExposure := "Medium";
  witnessRole := "Accounts payable clerk";
  witnessArchetype := "Nervous insider";
  witnessIntroduction := "Hello. I was told you wanted to speak with me.";
  documentUniverse := "Invoices and approval emails";
  hiddenGroundTruth := Some "The clerk approved two duplicate invoices.";
  keyRiskNodes := Some ["duplicate invoices"; "missing approvals"]
|}.

Definition sample_base : string := "You simulate a witness.".

Definition sample_report : FinalReport := {|
  timelineReconstructionScore := 60;
  contradictionIdentificationScore := 40;
  riskEscalationAwareness := 55;
  interviewControlAssessment := 70;
  behavioralAnalysis := "Guarded but cooperative.";
  legalExposureAnalysis := "Moderate.";
  missedFollowUps := ["Who approved the second invoice?"];
  improvedQuestioningPaths := ["Ask for the approval chain."]
|}.

(** The store a handler finishes with. *)
Definition store_after {A} (h : Handler A) (s : AppState) : AppState :=
  snd (fst (h s)).

(** The spec's [startSession]: both halves of [startSimulation], with the
    way the awaited call settles. *)
Definition startSession (base : string) (diff : Difficulty)
    (generated : Settled Scenario) (sdk : SdkBehaviour) : Handler unit :=
  startSimulation diff ;;
  startSimulation_resumed base diff generated sdk.

(** The spec's [submitUserTurn] for a question: the text is typed, the
    handler runs, and the reply of the chat settles. *)
Definition submitUserTurn (text : string) (sent : Settled Response) : Handler unit :=
  setInputValue text ;;
  k <- handleSendMessage ;;
  match k with
  | Some (Suspended_send _ _ newMessages) => handleSendMessage_resumed newMessages sent
  | _ => ret tt
  end.

(** The spec's [concludeSession]. *)
Definition concludeSession (generated : Settled FinalReport) : Handler unit :=
  endInterview ;;
  endInterview_resumed generated.

Fixpoint interview (turns : list (string * Settled Response)) : Handler unit :=
  match turns with
  | [] => ret tt
  | (text, sent) :: rest => submitUserTurn text sent ;; interview rest
  end.

(** A session right after a successful start at tier [diff]. *)
Definition started (diff : Difficulty) : AppState :=
  store_after
    (startSession sample_base diff (Fulfilled sample_scenario) None) initialState.

Definition typed (value : string) (s : AppState) : AppState :=
  store_after (setInputValue value) s.

(** ** The reply of a turn *)

(** The payload of a reply that gets through the [try] block of lines 89 to
    100: the promise is fulfilled, its text is JSON, and the value is one
    whose properties can be read. *)
Definition applied_data (sent : Settled Response) : option jsval :=
  match sent with
  | Rejected _ => None
  | Fulfilled response =>
      match parsed_text response with
      | inl _ => None
      | inr JUndefined | inr JNull => None
      | inr data => Some data
      end
  end.

(** [data.k], where the read does not throw. *)
Definition property (data : jsval) (k : string) : jsval :=
  match prop data k with
  | inr v => v
  | inl _ => JUndefined
  end.

Definition reply_message (data : jsval) : Message :=
  {| role := model;
     text := property data "witnessResponse";
     phase := Some (property data "currentPhase");
     hiddenState := Some (property data "updatedState") |}.

(** The message a settled turn appends. *)
Definition settled_message (sent : Settled Response) : Message :=
  match applied_data sent with
  | Some data => reply_message data
  | None => fallback_message
  end.

(** The external call failed (the promise was rejected) or the text of the
    reply did not parse. *)
Definition call_or_parsing_fails (sent : Settled Response) : bool :=
  match sent with
  | Rejected _ => true
  | Fulfilled response =>
      match parsed_text response with
      | inl _ => true
      | inr _ => false
      end
  end.

(** ** What the spec asks of a reply and of the first state *)

(** The validation that the spec asks for before a reply is applied (§4.3):
    a phase that is a member of [InterviewPhase], and a state with the seven
    attributes as numbers.  Modelled from the spec: the names of the seven
    attributes of [InternalState], declared in [./types]. *)
Definition InternalState_fields : list string :=
  ["truthfulness"; "stress"; "defensiveness"; "cooperation"; "memory";
   "exposure"; "legalRisk"].

Definition is_number (v : jsval) : bool :=
  match v with JNum _ => true | _ => false end.

Definition spec_valid_phase (v : jsval) : bool :=
  match v with
  | JStr p => existsb (String.eqb p) InterviewPhase_values
  | _ => false
  end.

Definition spec_valid_state (v : jsval) : bool :=
  match v with
  | JObj fields =>
      forallb (fun k => is_number (own_property k fields)) InternalState_fields
  | _ => false
  end.

Definition spec_valid_reply (sent : Settled Response) : bool :=
  match applied_data sent with
  | Some data =>
      spec_valid_phase (property data "currentPhase")
      && spec_valid_state (property data "updatedState")
  | None => false
  end.

(** A reply that is JSON but has an unknown phase and a state that is not
    seven numbers. *)
Definition malformed_reply : Settled Response :=
  Fulfilled {| parsed_text := inr (JObj
    [("witnessResponse", JStr "I do not recall.");
     ("currentPhase", JStr "Lunch break");
     ("updatedState", JObj [("truthfulness", JStr "high")])]) |}.

(** A question that is neither blank nor the reserved literal, with a reply
    that is applied. *)
Definition successful_turn (t : string * Settled Response) : Prop :=
  all_space (fst t) = false
  /\ toLowerCase (fst t) <> "end interview"
  /\ is_some (applied_data (snd t)) = true.

Definition introduction_message (sc : Scenario) : Message :=
  {| role := model; text := JStr (witnessIntroduction sc);
     phase := None; hiddenState := None |}.

Definition created_chat (base : string) (sc : Scenario) (diff : Difficulty) : Chat :=
  {| chat_model := "gemini-3-pro-preview";
     systemInstruction := systemPrompt base sc diff;
     responseMimeType := "application/json" |}.

Definition sample_reply (answer phase' : string) (stress' : Z) : Settled Response :=
  Fulfilled {| parsed_text := inr (JObj
    [("witnessResponse", JStr answer);
     ("currentPhase", JStr phase');
     ("updatedState", JObj
        [("truthfulness", JNum 65); ("stress", JNum stress');
         ("defensiveness", JNum 30); ("cooperation", JNum 70);
         ("memory", JNum 85); ("exposure", JNum 10); ("legalRisk", JNum 5)])]) |}.

Definition sample_turns : list (string * Settled Response) :=
  [("What did you do on March 3rd?", sample_reply "I was at my desk." "Rapport" 20);
   ("Who approved the invoice?", sample_reply "I am not sure." "Probing" 35)].

(** The baseline of the spec as an [InternalState]: the seven attributes with
    the values 70, 10, 20, 80, 90, 5 and 0. *)
Definition baseline_values : list (string * Z) :=
  [("truthfulness", 70); ("stress", 10); ("defensiveness", 20);
   ("cooperation", 80); ("memory", 90); ("exposure", 5); ("legalRisk", 0)]%Z.

Definition has_number (v : jsval) (kn : string * Z) : bool :=
  match v with
  | JObj fields =>
      match own_property (fst kn) fields with
      | JNum m => Z.eqb m (snd kn)
      | _ => false
      end
  | _ => false
  end.

Definition is_baseline (v : jsval) : bool :=
  forallb (has_number v) baseline_values.

Definition user_visible (ev : Event) : bool :=
  match ev with
  | Alert _ => true
  | ConsoleError _ => false
  end.

(** A session with a question in flight: the busy flag is set and the reply
    of the chat has not settled. *)
Definition question_in_flight : AppState :=
  store_after handleSendMessage (typed "Where were you?" (started BEGINNER)).

(** ** What the screens show

    The expressions that the JSX of lines 162 to 287 and of [MetricCard]
    (lines 352 to 368) hands to React, in the order of the markup. *)

(** A transcript entry of lines 235 to 251: user entries are set to the
    right, model entries to the left under a "Witness Response" header;
    only [m.text] is shown. *)
Record Bubble : Type := {
  justify_end : bool;
  witness_header : bool;
  bubble_text : jsval
}.

Definition message_bubble (m : Message) : Bubble :=
  match role m with
  | user => {| justify_end := true; witness_header := false; bubble_text := text m |}
  | model => {| justify_end := false; witness_header := true; bubble_text := text m |}
  end.

(** The colour of the exposure level (lines 191 to 194). *)
Definition exposure_class (regulatory : option string) : string :=
  match regulatory with
  | Some level =>
      if String.eqb level "High" then "text-red-400"
      else if String.eqb level "Medium" then "text-yellow-400"
      else "text-green-400"
  | None => "text-green-400"
  end.

(** The live interview screen.  [scenario?.x] is [None] while there is no
    scenario. *)
Record LiveView : Type := {
  lv_investigationType : option string;
  lv_difficulty : option Difficulty;
  lv_companyBackground : option string;
  lv_jurisdiction : option string;
  lv_exposure_class : string;
  lv_regulatoryExposure : option string;
  lv_witnessRole : option string;
  lv_documentUniverse : option string;
  lv_currentPhase : jsval;
  lv_bubbles : list Bubble;
  lv_typing_indicator : bool;
  lv_input_value : string;
  lv_send_disabled : bool
}.

Definition live_view (s : AppState) : LiveView := {|
  lv_investigationType := option_map investigationType (scenario s);
  lv_difficulty := difficulty s;
  lv_companyBackground := option_map companyBackground (scenario s);
  lv_jurisdiction := option_map jurisdiction (scenario s);
  lv_exposure_class := exposure_class (option_map regulatoryExposure (scenario s));
  lv_regulatoryExposure := option_map regulatoryExposure (scenario s);
  lv_witnessRole := option_map witnessRole (scenario s);
  lv_documentUniverse := option_map documentUniverse (scenario s);
  lv_currentPhase := currentPhase s;
  lv_bubbles := map message_bubble (messages s);
  lv_typing_indicator := isGenerating s;
  lv_input_value := inputValue s;
  lv_send_disabled := isGenerating s
|}.

(** A store with everything removed that the interviewer is not to see: the
    snapshots on the messages, the latest state, the chat with its system
    instruction, and the hidden fields of the scenario. *)
Definition redact_message (m : Message) : Message :=
  {| role := role m; text := text m; phase := None; hiddenState := None |}.

Definition redact_scenario (sc : Scenario) : Scenario := {|
  investigationType := investigationType sc;
  companyBackground := companyBackground sc;
  jurisdiction := jurisdiction sc;
  regulatoryExposure := regulatoryExposure sc;
  witnessRole := witnessRole sc;
  witnessArchetype := "";
  witnessIntroduction := "";
  documentUniverse := documentUniverse sc;
  hiddenGroundTruth := None;
  keyRiskNodes := None
|}.

Definition redact (s : AppState) : AppState := {|
  difficulty := difficulty s;
  scenario := option_map redact_scenario (scenario s);
  messages := map redact_message (messages s);
  inputValue := inputValue s;
  isGenerating := isGenerating s;
  chatSession := None;
  finalReport := finalReport s;
  latestState := JNull;
  currentPhase := currentPhase s
|}.

(** [MetricCard] (lines 352 to 368): the score, the colour of its bar and
    the width of the bar in percent. *)
Record MetricCard : Type := {
  card_label : string;
  card_score : Z;
  card_bar_class : string;
  card_bar_width : Z
}.

Definition bar_class (score : Z) : string :=
  if (75 <? score)%Z then "bg-green-500"
  else if (50 <? score)%Z then "bg-yellow-500"
  else "bg-red-500".

Definition metric_card (label : string) (score : Z) : MetricCard :=
  {| card_label := label; card_score := score;
     card_bar_class := bar_class score; card_bar_width := score |}.

(** The three colours of a bar, worst first. *)
Definition bar_rank (class : string) : nat :=
  if String.eqb class "bg-green-500" then 2
  else if String.eqb class "bg-yellow-500" then 1
  else 0.

(** ** The page as a transition system

    A page is its store and the calls in flight, oldest first.  The user
    acts on what is on the screen; the environment settles a call in flight
    with a result of its kind.  Reloading the page ([window.location.reload],
    line 122) drops the store and the calls in flight. *)

Definition Config : Type := (AppState * list Suspended)%type.

Definition initialConfig : Config := (initialState, []).

Inductive Settlement : Type :=
| Settle_start (generated : Settled Scenario) (sdk : SdkBehaviour)
| Settle_send (sent : Settled Response)
| Settle_end (generated : Settled FinalReport).

Definition resume (base : string) (k : Suspended) (o : Settlement)
    : option (Handler unit) :=
  match k, o with
  | Suspended_start diff, Settle_start generated sdk =>
      Some (startSimulation_resumed base diff generated sdk)
  | Suspended_send _ _ newMessages, Settle_send sent =>
      Some (handleSendMessage_resumed newMessages sent)
  | Suspended_end _ _, Settle_end generated =>
      Some (endInterview_resumed generated)
  | _, _ => None
  end.

Inductive Action : Type :=
| Ui (ev : UiEvent)
| Settle (i : nat) (o : Settlement).

Definition remove_nth {A} (i : nat) (l : list A) : list A :=
  firstn i l ++ skipn (S i) l.

Definition ui_step (ev : UiEvent) (c : Config) : Config :=
  let '(s, pending) := c in
  match render s, ev with
  | FinalReportView _, ClickStartNewSession => initialConfig
  | _, _ =>
      match dispatch ev s with
      | (inr (Some k), s', _) => (s', pending ++ [k])
      | (_, s', _) => (s', pending)
      end
  end.

Definition settle_step (base : string) (i : nat) (o : Settlement) (c : Config)
    : Config :=
  let '(s, pending) := c in
  match nth_error pending i with
  | Some k =>
      match resume base k o with
      | Some h => (store_after h s, remove_nth i pending)
      | None => c
      end
  | None => c
  end.

Definition act (base : string) (a : Action) (c : Config) : Config :=
  match a with
  | Ui ev => ui_step ev c
  | Settle i o => settle_step base i o c
  end.

Definition run (base : string) (trace : list Action) (c : Config) : Config :=
  fold_left (fun c a => act base a c) trace c.

Definition is_reload (a : Action) (c : Config) : bool :=
  match a, render (fst c) with
  | Ui ClickStartNewSession, FinalReportView _ => true
  | _, _ => false
  end.

Definition is_end_click (a : Action) : bool :=
  match a with
  | Ui ClickEndInterview => true
  | _ => false
  end.

(** Roles that alternate, beginning with [next]. *)
Fixpoint roles_alternate (next : Role) (msgs : list Message) : bool :=
  match msgs with
  | [] => true
  | m :: rest =>
      match next, role m with
      | model, model => roles_alternate user rest
      | user, user => roles_alternate model rest
      | _, _ => false
      end
  end.

(** The snapshot on the most recent message that carries one. *)
Fixpoint last_hiddenState (msgs : list Message) : option jsval :=
  match msgs with
  | [] => None
  | m :: rest =>
      match last_hiddenState rest with
      | Some v => Some v
      | None => hiddenState m
      end
  end.

Fixpoint last_phase (msgs : list Message) : option jsval :=
  match msgs with
  | [] => None
  | m :: rest =>
      match last_phase rest with
      | Some v => Some v
      | None => phase m
      end
  end.

Definition or_else {A} (o : option A) (d : A) : A :=
  match o with
  | Some v => v
  | None => d
  end.

(** The stores that the first halves of the handlers leave. *)
Definition set_busy (b : bool) (s : AppState) : AppState :=
  {| difficulty := difficulty s; scenario := scenario s;
     messages := messages s; inputValue := inputValue s;
     isGenerating := b;
     chatSession := chatSession s; finalReport := finalReport s;
     latestState := latestState s; currentPhase := currentPhase s |}.

Definition choosing (diff : Difficulty) (s : AppState) : AppState :=
  {| difficulty := Some diff; scenario := scenario s;
     messages := messages s; inputValue := inputValue s;
     isGenerating := true;
     chatSession := chatSession s; finalReport := finalReport s;
     latestState := latestState s; currentPhase := currentPhase s |}.

Definition asking (s : AppState) : AppState :=
  {| difficulty := difficulty s; scenario := scenario s;
     messages := messages s ++ [user_message (inputValue s)];
     inputValue := ""; isGenerating := true;
     chatSession := chatSession s; finalReport := finalReport s;
     latestState := latestState s; currentPhase := currentPhase s |}.

(** Invariants of the page. *)

Definition is_end (k : Suspended) : bool :=
  match k with
  | Suspended_end _ _ => true
  | _ => false
  end.

(** The transcript [msgs] begins with the introduction of the stored
    scenario. *)
Definition intro_first (s : AppState) (msgs : list Message) : Prop :=
  exists sc rest, scenario s = Some sc /\ msgs = introduction_message sc :: rest.

Definition after_start (s : AppState) (k : Suspended) : Prop :=
  match k with
  | Suspended_start _ => False
  | Suspended_send chat _ newMessages =>
      chatSession s = Some chat /\ intro_first s newMessages
  | Suspended_end _ _ => True
  end.

(** Either the scenario is being generated (its call is the oldest in
    flight, and nothing of the session exists yet), or no such call is in
    flight and whatever transcript there is begins with the introduction. *)
Definition session_inv (c : Config) : Prop :=
  let s := fst c in
  let pending := snd c in
  (exists diff rest,
      pending = Suspended_start diff :: rest
      /\ difficulty s = Some diff /\ scenario s = None
      /\ chatSession s = None /\ messages s = []
      /\ forallb is_end rest = true)
  \/ (Forall (after_start s) pending
      /\ (difficulty s = None -> s = initialState /\ pending = [])
      /\ (chatSession s <> None -> intro_first s (messages s))
      /\ (messages s = [] \/ intro_first s (messages s))).

(** The shape of the transcript between turns: empty, or of odd length. *)
Definition between_turns (msgs : list Message) : Prop :=
  msgs = [] \/ Nat.odd (length msgs) = true.

Definition serial_inv (c : Config) : Prop :=
  let s := fst c in
  let pending := snd c in
  roles_alternate model (messages s) = true
  /\ latestState s = or_else (last_hiddenState (messages s)) JNull
  /\ currentPhase s = or_else (last_phase (messages s)) InterviewPhase_RAPPORT
  /\ (chatSession s <> None -> messages s <> [])
  /\ ((pending = [] /\ isGenerating s = false /\ between_turns (messages s)
       /\ (difficulty s = None -> s = initialState))
      \/ (exists diff,
            pending = [Suspended_start diff] /\ isGenerating s = true
            /\ difficulty s <> None
            /\ chatSession s = None /\ messages s = [])
      \/ (exists chat userText newMessages,
            pending = [Suspended_send chat userText newMessages]
            /\ isGenerating s = true /\ difficulty s <> None
            /\ messages s = newMessages
            /\ Nat.even (length newMessages) = true)
      \/ (exists msgs sc,
            pending = [Suspended_end msgs sc] /\ isGenerating s = true
            /\ difficulty s <> None
            /\ between_turns (messages s))).

(** A scenario as the generator may return it when it leaves the two hidden
    fields out. *)
Definition bare_scenario : Scenario := {|
  investigationType := "Expense audit";
  companyBackground := "A small consultancy";
  jurisdiction := "Ontario";
  regulatoryExposure := "Low";
  witnessRole := "Office manager";
  witnessArchetype := "Talkative";
  witnessIntroduction := "Good morning.";
  documentUniverse := "Receipts";
  hiddenGroundTruth := None;
  keyRiskNodes := None
|}.

(** A trace of a whole session: the tier is chosen and the scenario arrives,
    two questions are asked and answered, and the report is asked for by
    typing the reserved literal. *)
Definition sample_trace : list Action :=
  [Ui (ClickDifficulty INTERMEDIATE);
   Settle 0 (Settle_start (Fulfilled sample_scenario) None);
   Ui (ChangeInput "What did you do on March 3rd?");
   Ui PressEnter;
   Settle 0 (Settle_send (sample_reply "I was at my desk." "Rapport" 20));
   Ui (ChangeInput "Who approved the invoice?");
   Ui ClickSend;
   Ui (ChangeInput "typed while waiting");
   Settle 0 (Settle_send (Rejected (Rejection "network")));
   Ui (ChangeInput "End Interview");
   Ui PressEnter;
   Settle 0 (Settle_end (Fulfilled sample_report))].

(** * Properties *)

(** ** Strings *)

Module JsStringFacts.

Lemma toLowerCase_length (s : string) :
  String.length (toLowerCase s) = String.length s.
Proof. induction s as [|c s IH]; simpl; congruence. Qed.

Lemma append_empty_inv (a b : string) :
  (a ++ b)%string = EmptyString -> a = EmptyString /\ b = EmptyString.
Proof. destruct a; simpl; [auto | discriminate]. Qed.

Lemma rev_empty_inv (s : string) : rev s = EmptyString -> s = EmptyString.
Proof.
  destruct s as [|c s]; simpl; [reflexivity|].
  intros H. apply append_empty_inv in H. destruct H; discriminate.
Qed.

Lemma all_space_app (a b : string) :
  all_space (a ++ b) = all_space a && all_space b.
Proof.
  induction a as [|c a IH]; simpl; [reflexivity|].
  rewrite IH. apply andb_assoc.
Qed.

Lemma all_space_rev (s : string) : all_space (rev s) = all_space s.
Proof.
  induction s as [|c s IH]; simpl; [reflexivity|].
  rewrite all_space_app, IH. simpl. rewrite andb_true_r. apply andb_comm.
Qed.

Lemma trimStart_all_space (s : string) :
  all_space s = true -> trimStart s = EmptyString.
Proof.
  induction s as [|c s IH]; simpl; [reflexivity|].
  destruct (is_space c); simpl; [exact IH | discriminate].
Qed.

(** What is left of a string that is not blank starts with a character
    that is not white space, and is not blank either. *)
Lemma trimStart_not_all_space (s : string) :
  all_space s = false ->
  exists c t, trimStart s = String c t /\ is_space c = false.
Proof.
  induction s as [|c s IH]; simpl; [discriminate|].
  destruct (is_space c) eqn:E; simpl.
  - exact IH.
  - intros _. exists c, s. split; [reflexivity | exact E].
Qed.

(** The guard [!inputValue.trim()] holds exactly for the blank strings. *)
Lemma truthy_trim (s : string) : truthy (trim s) = negb (all_space s).
Proof.
  unfold trim, trimEnd.
  destruct (all_space s) eqn:E; simpl.
  - rewrite (trimStart_all_space s E). reflexivity.
  - destruct (trimStart_not_all_space s E) as (c & t & Ht & Hc).
    rewrite Ht.
    assert (Hr : all_space (rev (String c t)) = false).
    { rewrite all_space_rev. simpl. rewrite Hc. reflexivity. }
    destruct (trimStart_not_all_space _ Hr) as (c' & t' & Ht' & _).
    rewrite Ht'.
    destruct (rev (String c' t')) eqn:R; [|reflexivity].
    apply rev_empty_inv in R. discriminate.
Qed.

(** The white space of the model is exactly the seven characters that
    [trim] strips among the code units below 256. *)
Lemma is_space_iff (c : ascii) :
  is_space c = true <-> In (nat_of_ascii c) [9; 10; 11; 12; 13; 32; 160].
Proof.
  destruct c as [[] [] [] [] [] [] [] []]; vm_compute; split;
    intros H; try reflexivity; try discriminate H;
    repeat (destruct H as [H | H]; [discriminate H|]); tauto.
Qed.

Lemma lower_char_space (c : ascii) : is_space c = true -> lower_char c = c.
Proof.
  destruct c as [[] [] [] [] [] [] [] []]; vm_compute; congruence.
Qed.

Lemma all_space_toLowerCase (s : string) :
  all_space s = true -> toLowerCase s = s.
Proof.
  induction s as [|c s IH]; simpl; [reflexivity|].
  intros H. apply andb_true_iff in H. destruct H as [Hc Hs].
  rewrite (lower_char_space c Hc), (IH Hs). reflexivity.
Qed.

(** A case variant of the reserved literal is not blank. *)
Lemma sentinel_not_blank (s : string) :
  toLowerCase s = "end interview" -> all_space s = false.
Proof.
  intros H. destruct (all_space s) eqn:E; [|reflexivity].
  rewrite (all_space_toLowerCase s E) in H. subst s. discriminate.
Qed.

Lemma append_assoc (a b c : string) :
  ((a ++ b) ++ c)%string = (a ++ (b ++ c))%string.
Proof. induction a as [|x a IH]; simpl; congruence. Qed.

Lemma append_length (a b : string) :
  String.length (a ++ b) = String.length a + String.length b.
Proof. induction a as [|c a IH]; simpl; congruence. Qed.

End JsStringFacts.

(** ** The guard of [handleSendMessage] *)

Section Guard.

Import JsStringFacts.

Variable s : AppState.

Lemma handleSendMessage_blank :
  all_space (inputValue s) = true -> handleSendMessage s = (inr None, s, []).
Proof.
  intros H. unfold handleSendMessage, bind, read.
  rewrite truthy_trim, H. reflexivity.
Qed.

Lemma handleSendMessage_trim_empty :
  trim (inputValue s) = EmptyString -> handleSendMessage s = (inr None, s, []).
Proof.
  intros H. unfold handleSendMessage, bind, read.
  rewrite H. reflexivity.
Qed.

Lemma handleSendMessage_no_session :
  chatSession s = None -> handleSendMessage s = (inr None, s, []).
Proof.
  intros H. unfold handleSendMessage, bind, read.
  rewrite H. simpl. rewrite orb_true_r. reflexivity.
Qed.

Lemma handleSendMessage_busy :
  isGenerating s = true -> handleSendMessage s = (inr None, s, []).
Proof.
  intros H. unfold handleSendMessage, bind, read.
  rewrite H. rewrite orb_true_r. reflexivity.
Qed.

(** Past the guard, a case variant of the literal runs [endInterview]. *)
Lemma handleSendMessage_sentinel :
  is_some (chatSession s) = true -> isGenerating s = false ->
  toLowerCase (inputValue s) = "end interview" ->
  handleSendMessage s = (k <- endInterview ;; ret (Some k)) s.
Proof.
  intros Hc Hb Hl. unfold handleSendMessage at 1. unfold bind at 1 2 3 4, read.
  rewrite truthy_trim, (sentinel_not_blank _ Hl), Hc, Hb, Hl. reflexivity.
Qed.

(** Past the guard, any other text is a question: it is appended and sent. *)
Lemma handleSendMessage_question (chat : Chat) :
  chatSession s = Some chat -> isGenerating s = false ->
  all_space (inputValue s) = false ->
  toLowerCase (inputValue s) <> "end interview" ->
  handleSendMessage s =
    (inr (Some (Suspended_send chat (inputValue s)
                  (messages s ++ [user_message (inputValue s)]))),
     {| difficulty := difficulty s; scenario := scenario s;
        messages := messages s ++ [user_message (inputValue s)];
        inputValue := ""; isGenerating := true;
        chatSession := chatSession s; finalReport := finalReport s;
        latestState := latestState s; currentPhase := currentPhase s |},
     []).
Proof.
  intros Hc Hb Hn Hl. unfold handleSendMessage, bind, read.
  rewrite truthy_trim, Hn, Hc, Hb. simpl.
  apply String.eqb_neq in Hl. rewrite Hl, Hc. reflexivity.
Qed.

End Guard.

(** ** Blank input, the reserved literal, and padded variants of it *)

(** C9.  When the input is empty or consists only of white space (NO-BREAK
    SPACE included), which is when [inputValue.trim()] is the empty string,
    or when there is no chat session, [handleSendMessage] does nothing at
    all: it gives back the store it was given (transcript, phase, latest
    state and busy flag included), makes no external call and leaves no
    trace. *)
Theorem C9_blank_or_sessionless_submit_is_noop (s : AppState) :
  all_space (inputValue s) = true
  \/ trim (inputValue s) = EmptyString
  \/ chatSession s = None ->
  handleSendMessage s = (inr None, s, []).
Proof.
  intros [H | [H | H]].
  - apply handleSendMessage_blank; exact H.
  - apply handleSendMessage_trim_empty; exact H.
  - apply handleSendMessage_no_session; exact H.
Qed.

Lemma C9_witness :
  handleSendMessage (typed "   " (started BEGINNER))
    = (inr None, typed "   " (started BEGINNER), [])
  /\ handleSendMessage
       (typed (String (ascii_of_nat 160) (String (ascii_of_nat 9) " "))
          (started BEGINNER))
     = (inr None,
        typed (String (ascii_of_nat 160) (String (ascii_of_nat 9) " "))
          (started BEGINNER), [])
  /\ handleSendMessage (typed "" (started BEGINNER))
     = (inr None, typed "" (started BEGINNER), [])
  /\ handleSendMessage (typed "Where were you?" initialState)
     = (inr None, typed "Where were you?" initialState, []).
Proof.
  split; [|split; [|split]].
  - apply C9_blank_or_sessionless_submit_is_noop. left. reflexivity.
  - apply C9_blank_or_sessionless_submit_is_noop. left. reflexivity.
  - apply C9_blank_or_sessionless_submit_is_noop. right; left. reflexivity.
  - apply C9_blank_or_sessionless_submit_is_noop. right; right. reflexivity.
Defined.

(** C5.  When the input is the literal "end interview" in any letter casing,
    [handleSendMessage] never appends to the transcript and never sends the
    text as a question; in a session that has a chat and no call in flight
    it does exactly what [endInterview] does, so that the report is
    requested for the transcript as it stands. *)
Theorem C5_end_interview_literal_concludes (s : AppState) :
  toLowerCase (inputValue s) = "end interview" ->
  (messages (store_after handleSendMessage s) = messages s
   /\ forall chat userText newMessages,
        fst (fst (handleSendMessage s))
          <> inr (Some (Suspended_send chat userText newMessages)))
  /\ (is_some (chatSession s) = true -> isGenerating s = false ->
      handleSendMessage s = (k <- endInterview ;; ret (Some k)) s
      /\ fst (fst (handleSendMessage s))
           = inr (Some (Suspended_end (messages s) (scenario s)))
      /\ inputValue (store_after handleSendMessage s) = inputValue s).
Proof.
  intros Hl.
  assert (Hgo : is_some (chatSession s) = true -> isGenerating s = false ->
                handleSendMessage s =
                  (inr (Some (Suspended_end (messages s) (scenario s))),
                   store_after endInterview s, [])).
  { intros Hc Hb. rewrite (handleSendMessage_sentinel s Hc Hb Hl). reflexivity. }
  split.
  - destruct (chatSession s) as [chat|] eqn:Hc.
    + destruct (isGenerating s) eqn:Hb.
      * unfold store_after. rewrite (handleSendMessage_busy s Hb).
        split; [reflexivity | intros; discriminate].
      * unfold store_after at 1. rewrite (Hgo eq_refl eq_refl).
        split; [reflexivity | intros; discriminate].
    + unfold store_after. rewrite (handleSendMessage_no_session s Hc).
      split; [reflexivity | intros; discriminate].
  - intros Hc Hb. split; [|split].
    + exact (handleSendMessage_sentinel s Hc Hb Hl).
    + rewrite (Hgo Hc Hb). reflexivity.
    + unfold store_after at 1. rewrite (Hgo Hc Hb). reflexivity.
Qed.

Lemma C5_witness :
  fst (fst (handleSendMessage (typed "End INTERVIEW" (started CRISIS))))
    = inr (Some (Suspended_end (messages (started CRISIS)) (Some sample_scenario)))
  /\ messages (store_after handleSendMessage (typed "End INTERVIEW" (started CRISIS)))
     = messages (started CRISIS).
Proof.
  pose proof (C5_end_interview_literal_concludes
                (typed "End INTERVIEW" (started CRISIS)) eq_refl) as [[Hm _] Hgo].
  destruct (Hgo eq_refl eq_refl) as (_ & Hk & _).
  split; [exact Hk | exact Hm].
Defined.

(** C10.  The literal is recognised on the lowercased input as typed, with
    no trimming: [endInterview] is reached only when that text is exactly
    "end interview"; and an input made of the literal (in any casing) with
    white space before or after it is an ordinary question, appended to the
    transcript and sent to the chat. *)
Theorem C10_padded_literal_is_a_question :
  (forall s msgs sc,
      fst (fst (handleSendMessage s)) = inr (Some (Suspended_end msgs sc)) ->
      toLowerCase (inputValue s) = "end interview")
  /\
  (forall s chat before core after,
      chatSession s = Some chat -> isGenerating s = false ->
      inputValue s = (before ++ core ++ after)%string ->
      toLowerCase core = "end interview" ->
      all_space before = true -> all_space after = true ->
      (before ++ after)%string <> EmptyString ->
      fst (fst (handleSendMessage s))
        = inr (Some (Suspended_send chat (inputValue s)
                       (messages s ++ [user_message (inputValue s)])))
      /\ messages (store_after handleSendMessage s)
         = messages s ++ [user_message (inputValue s)]).
Proof.
  split.
  - intros s msgs sc H.
    destruct (String.eqb (toLowerCase (inputValue s)) "end interview") eqn:E.
    + apply String.eqb_eq; exact E.
    + exfalso. revert H. unfold handleSendMessage, bind, read.
      destruct (negb (truthy (trim (inputValue s)))
                || negb (is_some (chatSession s)) || isGenerating s);
        [discriminate|].
      rewrite E. simpl. destruct (chatSession s); discriminate.
  - intros s chat before core after Hc Hb Hin Hcore Hbefore Hafter Hpad.
    assert (Hn : all_space (inputValue s) = false).
    { rewrite Hin, !JsStringFacts.all_space_app,
        (JsStringFacts.sentinel_not_blank core Hcore).
      rewrite andb_false_r. reflexivity. }
    assert (Hl : toLowerCase (inputValue s) <> "end interview").
    { intros E. apply (f_equal String.length) in E.
      rewrite JsStringFacts.toLowerCase_length, Hin in E.
      apply (f_equal String.length) in Hcore.
      rewrite JsStringFacts.toLowerCase_length in Hcore.
      rewrite !JsStringFacts.append_length, Hcore in E. simpl in E.
      destruct before; [|simpl in E; lia].
      destruct after; [|simpl in E; lia].
      apply Hpad. reflexivity. }
    unfold store_after.
    rewrite (handleSendMessage_question s chat Hc Hb Hn Hl). split; reflexivity.
Qed.

Lemma C10_witness :
  messages (store_after handleSendMessage (typed "end interview " (started ADVANCED)))
    = messages (started ADVANCED) ++ [user_message "end interview "].
Proof.
  refine (proj2 (proj2 C10_padded_literal_is_a_question
                   (typed "end interview " (started ADVANCED))
                   _ "" "end interview" " " eq_refl eq_refl eq_refl eq_refl eq_refl eq_refl _)).
  discriminate.
Defined.

(** ** Turns: failed calls and unvalidated replies *)

Lemma handleSendMessage_resumed_spec (newMessages : list Message)
    (sent : Settled Response) (s : AppState) :
  handleSendMessage_resumed newMessages sent s =
    match applied_data sent with
    | Some data =>
        (inr tt,
         {| difficulty := difficulty s; scenario := scenario s;
            messages := newMessages ++ [reply_message data];
            inputValue := inputValue s; isGenerating := false;
            chatSession := chatSession s; finalReport := finalReport s;
            latestState := property data "updatedState";
            currentPhase := property data "currentPhase" |},
         [])
    | None =>
        (inr tt,
         {| difficulty := difficulty s; scenario := scenario s;
            messages := newMessages ++ [fallback_message];
            inputValue := inputValue s; isGenerating := false;
            chatSession := chatSession s; finalReport := finalReport s;
            latestState := latestState s; currentPhase := currentPhase s |},
         [ConsoleError "Error sending message:"])
    end.
Proof.
  destruct sent as [[[e|data]]|e]; try destruct data; reflexivity.
Qed.

(** A whole turn on a session that accepts it: the store on which the
    reply settles already holds the question. *)
Lemma submitUserTurn_question_eq (s : AppState) (chat : Chat) (text : string)
    (sent : Settled Response) :
  chatSession s = Some chat -> isGenerating s = false ->
  all_space text = false -> toLowerCase text <> "end interview" ->
  submitUserTurn text sent s =
    handleSendMessage_resumed (messages s ++ [user_message text]) sent
      {| difficulty := difficulty s; scenario := scenario s;
         messages := messages s ++ [user_message text];
         inputValue := ""; isGenerating := true;
         chatSession := chatSession s; finalReport := finalReport s;
         latestState := latestState s; currentPhase := currentPhase s |}.
Proof.
  intros Hc Hb Hn Hl. unfold submitUserTurn, bind.
  change (setInputValue text s) with (@inr exn unit tt, typed text s, @nil Event).
  cbv beta iota.
  rewrite (handleSendMessage_question (typed text s) chat Hc Hb Hn Hl).
  unfold typed, store_after. cbn [setInputValue fst snd inputValue messages
    difficulty scenario chatSession finalReport latestState currentPhase].
  destruct (handleSendMessage_resumed _ _ _) as [[r s2] l]. reflexivity.
Qed.

Lemma submitUserTurn_question (s : AppState) (chat : Chat) (text : string)
    (sent : Settled Response) :
  chatSession s = Some chat -> isGenerating s = false ->
  all_space text = false -> toLowerCase text <> "end interview" ->
  messages (store_after (submitUserTurn text sent) s)
    = messages s ++ [user_message text; settled_message sent]
  /\ chatSession (store_after (submitUserTurn text sent) s) = Some chat
  /\ isGenerating (store_after (submitUserTurn text sent) s) = false.
Proof.
  intros Hc Hb Hn Hl. unfold store_after.
  rewrite (submitUserTurn_question_eq s chat text sent Hc Hb Hn Hl).
  rewrite handleSendMessage_resumed_spec. unfold settled_message.
  destruct (applied_data sent); simpl; rewrite <- app_assoc; simpl;
    repeat split; auto.
Qed.

Lemma store_after_bind {A B} (m : Handler A) (f : A -> Handler B)
    (s : AppState) (a : A) :
  fst (fst (m s)) = inr a ->
  store_after (bind m f) s = store_after (f a) (store_after m s).
Proof.
  unfold store_after, bind. destruct (m s) as [[r s1] l1]. simpl.
  intros ->. destruct (f a s1) as [[r2 s2] l2]. reflexivity.
Qed.

Lemma submitUserTurn_returns (s : AppState) (chat : Chat) (text : string)
    (sent : Settled Response) :
  chatSession s = Some chat -> isGenerating s = false ->
  all_space text = false -> toLowerCase text <> "end interview" ->
  fst (fst (submitUserTurn text sent s)) = inr tt.
Proof.
  intros Hc Hb Hn Hl.
  rewrite (submitUserTurn_question_eq s chat text sent Hc Hb Hn Hl).
  rewrite handleSendMessage_resumed_spec.
  destruct (applied_data sent); reflexivity.
Qed.

Lemma failed_reply_not_applied (sent : Settled Response) :
  call_or_parsing_fails sent = true -> applied_data sent = None.
Proof.
  destruct sent as [[[e|data]]|e]; simpl; intros H;
    [reflexivity | discriminate | reflexivity].
Qed.

(** C6.  When the call to the chat or the parsing of its reply fails, a turn
    on a session that accepts it ends with the question and exactly one
    fallback message ("... trouble processing that question.") appended in
    this order, with phase, latest state and every other field but the input
    box as before the call, the busy flag cleared, and the session still
    Active. *)
Theorem C6_failed_turn_appends_one_fallback (s : AppState) (chat : Chat)
    (question : string) (sent : Settled Response) :
  chatSession s = Some chat -> isGenerating s = false ->
  all_space question = false -> toLowerCase question <> "end interview" ->
  call_or_parsing_fails sent = true ->
  submitUserTurn question sent s =
    (inr tt,
     {| difficulty := difficulty s; scenario := scenario s;
        messages := messages s ++ [user_message question; fallback_message];
        inputValue := ""; isGenerating := false;
        chatSession := chatSession s; finalReport := finalReport s;
        latestState := latestState s; currentPhase := currentPhase s |},
     [ConsoleError "Error sending message:"])
  /\ machine_state (store_after (submitUserTurn question sent) s) = machine_state s
  /\ text fallback_message
     = JStr ("I'm sorry, I'm having " ++ "trouble processing that question" ++ ".").
Proof.
  intros Hc Hb Hn Hl Hf.
  assert (E : submitUserTurn question sent s =
    (inr tt,
     {| difficulty := difficulty s; scenario := scenario s;
        messages := messages s ++ [user_message question; fallback_message];
        inputValue := ""; isGenerating := false;
        chatSession := chatSession s; finalReport := finalReport s;
        latestState := latestState s; currentPhase := currentPhase s |},
     [ConsoleError "Error sending message:"])).
  { rewrite (submitUserTurn_question_eq s chat question sent Hc Hb Hn Hl).
    rewrite handleSendMessage_resumed_spec, (failed_reply_not_applied sent Hf).
    cbn [difficulty scenario chatSession finalReport latestState currentPhase
         inputValue messages].
    rewrite <- app_assoc. reflexivity. }
  split; [exact E | split; [|reflexivity]].
  unfold store_after. rewrite E. unfold machine_state, render. simpl.
  destruct (finalReport s), (difficulty s); reflexivity.
Qed.

Lemma C6_witness :
  messages (store_after
              (submitUserTurn "Where were you on March 3rd?"
                 (Rejected (Rejection "network"))) (started BEGINNER))
    = messages (started BEGINNER)
        ++ [user_message "Where were you on March 3rd?"; fallback_message]
  /\ messages (store_after
                 (submitUserTurn "Where were you on March 3rd?"
                    (Fulfilled {| parsed_text := inl SyntaxError |}))
                 (started BEGINNER))
     = messages (started BEGINNER)
         ++ [user_message "Where were you on March 3rd?"; fallback_message].
Proof.
  split.
  - unfold store_after at 1.
    rewrite (proj1 (C6_failed_turn_appends_one_fallback (started BEGINNER) _
                      "Where were you on March 3rd?" (Rejected (Rejection "network"))
                      eq_refl eq_refl eq_refl
                      ltac:(discriminate) eq_refl)).
    reflexivity.
  - unfold store_after at 1.
    rewrite (proj1 (C6_failed_turn_appends_one_fallback (started BEGINNER) _
                      "Where were you on March 3rd?"
                      (Fulfilled {| parsed_text := inl SyntaxError |})
                      eq_refl eq_refl eq_refl
                      ltac:(discriminate) eq_refl)).
    reflexivity.
Defined.

(** C4, as the spec has it, fails: a reply that does not pass the validation
    is applied all the same.  Here the phase becomes "Lunch break" and the
    latest state an object with one text field. *)
Lemma C4_counterexample :
  ~ (forall (s : AppState) (newMessages : list Message) (sent : Settled Response),
        spec_valid_reply sent = false ->
        latestState (store_after (handleSendMessage_resumed newMessages sent) s)
          = latestState s
        /\ currentPhase (store_after (handleSendMessage_resumed newMessages sent) s)
           = currentPhase s
        /\ messages (store_after (handleSendMessage_resumed newMessages sent) s)
           = newMessages ++ [fallback_message]).
Proof.
  intros H.
  destruct (H (started BEGINNER) (messages (started BEGINNER)) malformed_reply eq_refl)
    as (Hs & _).
  discriminate Hs.
Qed.

(** C4, amended.  A reply is applied as soon as the call is fulfilled and its
    text parses to a value other than [null]: whatever [currentPhase] and
    [updatedState] hold, missing included, becomes the phase and the latest
    state, and a model message with them is appended; no validation of the
    phase or of the seven attributes takes place.  In every other case (a
    rejected call, text that is not JSON, a [null] payload) the fallback
    message is appended and phase and latest state stay as they were. *)
Theorem C4_reply_applied_without_validation (newMessages : list Message)
    (sent : Settled Response) (s : AppState) :
  (forall data, data <> JNull -> data <> JUndefined ->
      applied_data (Fulfilled {| parsed_text := inr data |}) = Some data)
  /\
  match applied_data sent with
  | Some data =>
      latestState (store_after (handleSendMessage_resumed newMessages sent) s)
        = property data "updatedState"
      /\ currentPhase (store_after (handleSendMessage_resumed newMessages sent) s)
         = property data "currentPhase"
      /\ messages (store_after (handleSendMessage_resumed newMessages sent) s)
         = newMessages ++ [reply_message data]
  | None =>
      latestState (store_after (handleSendMessage_resumed newMessages sent) s)
        = latestState s
      /\ currentPhase (store_after (handleSendMessage_resumed newMessages sent) s)
         = currentPhase s
      /\ messages (store_after (handleSendMessage_resumed newMessages sent) s)
         = newMessages ++ [fallback_message]
  end.
Proof.
  split.
  - intros data Hnull Hundef. destruct data; simpl; congruence.
  - unfold store_after. rewrite handleSendMessage_resumed_spec.
    destruct (applied_data sent); simpl; auto.
Qed.

Lemma C4_witness :
  currentPhase
    (store_after
       (handleSendMessage_resumed (messages question_in_flight) malformed_reply)
       question_in_flight)
    = JStr "Lunch break"
  /\ spec_valid_reply malformed_reply = false.
Proof.
  split; [|reflexivity].
  exact (proj1 (proj2 (proj2 (C4_reply_applied_without_validation
                                (messages question_in_flight) malformed_reply
                                question_in_flight)))).
Defined.

(** ** The length of the transcript *)

Lemma interview_length (turns : list (string * Settled Response)) :
  forall (s : AppState) (chat : Chat),
    chatSession s = Some chat -> isGenerating s = false ->
    Forall successful_turn turns ->
    length (messages (store_after (interview turns) s))
      = length (messages s) + 2 * length turns
    /\ chatSession (store_after (interview turns) s) = Some chat
    /\ isGenerating (store_after (interview turns) s) = false.
Proof.
  induction turns as [|[question sent] rest IH]; intros s chat Hc Hb Hok.
  - simpl. unfold store_after. simpl. repeat split; [lia | exact Hc | exact Hb].
  - inversion Hok as [|t ts (Hn & Hl & _) Hrest]; subst. simpl in Hn, Hl.
    simpl interview.
    rewrite (store_after_bind _ _ s tt
               (submitUserTurn_returns s chat question sent Hc Hb Hn Hl)).
    destruct (submitUserTurn_question s chat question sent Hc Hb Hn Hl)
      as (Hm & Hc' & Hb').
    destruct (IH _ chat Hc' Hb' Hrest) as (Hlen & Hc'' & Hb'').
    rewrite Hlen, Hm, length_app. simpl. repeat split; [lia | exact Hc'' | exact Hb''].
Qed.

Lemma startSession_success (base : string) (diff : Difficulty) (sc : Scenario)
    (s : AppState) :
  startSession base diff (Fulfilled sc) None s =
    (inr tt,
     {| difficulty := Some diff; scenario := Some sc;
        messages := [introduction_message sc];
        inputValue := inputValue s; isGenerating := false;
        chatSession := Some (created_chat base sc diff);
        finalReport := finalReport s;
        latestState := latestState s; currentPhase := currentPhase s |},
     []).
Proof. reflexivity. Qed.

Lemma startSession_scenario_rejected (base : string) (diff : Difficulty)
    (e : exn) (sdk : SdkBehaviour) (s : AppState) :
  startSession base diff (Rejected e) sdk s =
    (inr tt,
     {| difficulty := Some diff; scenario := scenario s;
        messages := messages s;
        inputValue := inputValue s; isGenerating := false;
        chatSession := chatSession s; finalReport := finalReport s;
        latestState := latestState s; currentPhase := currentPhase s |},
     [ConsoleError "Error starting simulation:";
      Alert "Failed to initialize simulation. Please check your connection."]).
Proof. reflexivity. Qed.

(** C7.  After a successful start, [N] successful turns that are neither
    blank nor the reserved literal leave a transcript of [1 + 2 * N]
    entries; and the question of a further turn is in the transcript, with
    the busy flag raised, when the handler suspends on the call to the chat,
    that is before the reply is awaited. *)
Theorem C7_transcript_length (base : string) (diff : Difficulty) (sc : Scenario)
    (turns : list (string * Settled Response)) :
  Forall successful_turn turns ->
  let s0 := store_after (startSession base diff (Fulfilled sc) None) initialState in
  let sN := store_after (interview turns) s0 in
  length (messages s0) = 1
  /\ length (messages sN) = 1 + 2 * length turns
  /\ forall question,
       all_space question = false -> toLowerCase question <> "end interview" ->
       fst (fst (handleSendMessage (typed question sN)))
         = inr (Some (Suspended_send (created_chat base sc diff) question
                        (messages sN ++ [user_message question])))
       /\ messages (store_after handleSendMessage (typed question sN))
          = messages sN ++ [user_message question]
       /\ isGenerating (store_after handleSendMessage (typed question sN)) = true.
Proof.
  intros Hok s0 sN.
  assert (Hc0 : chatSession s0 = Some (created_chat base sc diff)) by reflexivity.
  assert (Hb0 : isGenerating s0 = false) by reflexivity.
  destruct (interview_length turns s0 _ Hc0 Hb0 Hok) as (Hlen & Hc & Hb).
  fold sN in Hlen, Hc, Hb.
  split; [reflexivity | split; [exact Hlen|]].
  intros question Hn Hl. unfold store_after at 1 2.
  rewrite (handleSendMessage_question (typed question sN)
             (created_chat base sc diff) Hc Hb Hn Hl).
  repeat split; reflexivity.
Qed.

Lemma sample_turns_successful : Forall successful_turn sample_turns.
Proof.
  repeat constructor; simpl; discriminate.
Defined.

Lemma C7_witness :
  length (messages (store_after (interview sample_turns)
            (store_after (startSession sample_base INTERMEDIATE
                            (Fulfilled sample_scenario) None) initialState)))
    = 1 + 2 * 2.
Proof.
  exact (proj1 (proj2 (C7_transcript_length sample_base INTERMEDIATE sample_scenario
                         sample_turns sample_turns_successful))).
Defined.

(** ** Starting a session *)

(** C1, as the spec has it, fails: after a successful start at tier Beginner
    the latest state is still [null], not the baseline. *)
Lemma C1_counterexample :
  ~ (machine_state (started BEGINNER) = Active
     /\ length (messages (started BEGINNER)) = 1
     /\ is_baseline (latestState (started BEGINNER)) = true).
Proof.
  intros (_ & _ & H). vm_compute in H. discriminate H.
Qed.

Lemma systemPrompt_initial_state (base : string) (sc : Scenario) (diff : Difficulty) :
  exists before,
    systemPrompt base sc diff = (before ++ INITIAL_STATE_LINES ++ "      ")%string.
Proof.
  unfold systemPrompt.
  repeat rewrite <- JsStringFacts.append_assoc.
  rewrite JsStringFacts.append_assoc.
  eexists. reflexivity.
Qed.

(** C1, amended.  For every tier, a successful start from the initial store
    leaves the session Active and idle, with a transcript of exactly one
    model-authored message, the introduction of the scenario, and with the
    phase at its initial value.  [startSimulation] does not write the latest
    state: it is what it was before the call ([null] in the initial store),
    and the baseline 70, 10, 20, 80, 90, 5, 0 is only given to the model, in
    the system instruction of the chat that is created. *)
Theorem C1_successful_start (base : string) (diff : Difficulty) (sc : Scenario) :
  let s := store_after (startSession base diff (Fulfilled sc) None) initialState in
  machine_state s = Active
  /\ isGenerating s = false
  /\ messages s = [introduction_message sc]
  /\ role (introduction_message sc) = model
  /\ currentPhase s = InterviewPhase_RAPPORT
  /\ latestState s = JNull
  /\ (forall s0,
        latestState (store_after (startSession base diff (Fulfilled sc) None) s0)
          = latestState s0)
  /\ exists chat before,
       chatSession s = Some chat
       /\ systemInstruction chat
          = (before ++ INITIAL_STATE_LINES ++ "      ")%string.
Proof.
  cbv zeta. repeat (split; [reflexivity|]).
  destruct (systemPrompt_initial_state base sc diff) as (before & Hp).
  exists (created_chat base sc diff), before. split; [reflexivity | exact Hp].
Qed.

(** ** Failures of the start and of the conclusion, and the busy flag *)

(** C2: what the code does when [generateScenario] throws.  The scenario,
    the transcript, the chat, the phase and the latest state are as before,
    the busy flag is cleared and the user is alerted; but the difficulty set
    at line 28 stays set, so the machine is Active, not Uninitialized: the
    live screen is shown with no scenario and no chat, and the difficulty
    buttons that would retry are no longer there. *)
Theorem C2_failed_start_keeps_difficulty (base : string) (diff : Difficulty)
    (e : exn) (sdk : SdkBehaviour) :
  let s := store_after (startSession base diff (Rejected e) sdk) initialState in
  difficulty s = Some diff
  /\ difficulty s <> difficulty initialState
  /\ machine_state s = Active
  /\ render s = LiveScreen false false
  /\ scenario s = None /\ messages s = [] /\ chatSession s = None
  /\ currentPhase s = currentPhase initialState
  /\ latestState s = latestState initialState
  /\ snd (startSession base diff (Rejected e) sdk initialState)
     = [ConsoleError "Error starting simulation:";
        Alert "Failed to initialize simulation. Please check your connection."]
  /\ forall retry, dispatch (ClickDifficulty retry) s = (inr None, s, []).
Proof.
  cbv zeta. unfold store_after. rewrite startSession_scenario_rejected.
  repeat (split; [first [reflexivity | discriminate]|]).
  intros retry. reflexivity.
Qed.

(** [endInterview] has no guard: whatever the busy flag, it asks for the
    report. *)
Lemma endInterview_unguarded (s : AppState) :
  endInterview s =
    (inr (Suspended_end (messages s) (scenario s)),
     {| difficulty := difficulty s; scenario := scenario s;
        messages := messages s; inputValue := inputValue s;
        isGenerating := true;
        chatSession := chatSession s; finalReport := finalReport s;
        latestState := latestState s; currentPhase := currentPhase s |},
     []).
Proof. reflexivity. Qed.

Lemma endInterview_resumed_rejected (e : exn) (s : AppState) :
  endInterview_resumed (Rejected e) s =
    (inr tt,
     {| difficulty := difficulty s; scenario := scenario s;
        messages := messages s; inputValue := inputValue s;
        isGenerating := false;
        chatSession := chatSession s; finalReport := finalReport s;
        latestState := latestState s; currentPhase := currentPhase s |},
     [ConsoleError "Error generating report:"]).
Proof. reflexivity. Qed.

(** C3: what the code does while a turn is in flight.  A second submission
    (Enter key or Send button) is ignored, but the End Interview button is
    enabled and [endInterview] is not gated: it issues [generateFeedback]
    while the question is outstanding.  When that second call settles it
    stores the report, or clears the busy flag, with the first call still
    in flight, and a new question is then accepted and sent. *)
Theorem C3_end_interview_not_gated :
  isGenerating question_in_flight = true
  /\ dispatch PressEnter (typed "And then?" question_in_flight)
     = (inr None, typed "And then?" question_in_flight, [])
  /\ dispatch ClickSend (typed "And then?" question_in_flight)
     = (inr None, typed "And then?" question_in_flight, [])
  /\ render question_in_flight = LiveScreen true false
  /\ (exists k,
        fst (fst (dispatch ClickEndInterview question_in_flight)) = inr (Some k)
        /\ call_of k
           = generateFeedback (messages question_in_flight) (Some sample_scenario))
  /\ (forall s, fst (fst (endInterview s))
                = inr (Suspended_end (messages s) (scenario s)))
  /\ machine_state
       (store_after (endInterview_resumed (Fulfilled sample_report))
          (store_after (dispatch ClickEndInterview) question_in_flight))
     = Concluded
  /\ (let s := store_after (endInterview_resumed (Rejected (Rejection "network")))
                 (store_after (dispatch ClickEndInterview) question_in_flight) in
      isGenerating s = false
      /\ exists chat newMessages,
           fst (fst (dispatch PressEnter (typed "And then?" s)))
             = inr (Some (Suspended_send chat "And then?" newMessages))).
Proof.
  do 4 (split; [reflexivity|]).
  split; [eexists; split; reflexivity|].
  repeat (split; [reflexivity|]).
  eexists _, _. reflexivity.
Qed.

(** C8: what the code does when [generateFeedback] throws.  No report is
    stored, the session stays Active and idle and the call can be made
    again; but the handler returns normally and the only trace of the
    failure is a line on the developer console: nothing is shown to the
    user, whose screen is the one from before the call, where the sibling
    handlers raise an alert or append a fallback message. *)
Theorem C8_failed_conclusion_is_silent (e : exn) (diff : Difficulty) (s : AppState) :
  concludeSession (Rejected e) s =
    (inr tt,
     {| difficulty := difficulty s; scenario := scenario s;
        messages := messages s; inputValue := inputValue s;
        isGenerating := false;
        chatSession := chatSession s; finalReport := finalReport s;
        latestState := latestState s; currentPhase := currentPhase s |},
     [ConsoleError "Error generating report:"])
  /\ existsb user_visible (snd (concludeSession (Rejected e) s)) = false
  /\ store_after (concludeSession (Rejected e)) (started diff) = started diff
  /\ machine_state (store_after (concludeSession (Rejected e)) (started diff)) = Active
  /\ finalReport (store_after (concludeSession (Rejected e)) (started diff)) = None
  /\ existsb user_visible
       (snd (startSession sample_base diff (Rejected e) None initialState)) = true
  /\ fst (fst (concludeSession (Fulfilled sample_report)
                 (store_after (concludeSession (Rejected e)) (started diff))))
     = inr tt
  /\ finalReport
       (store_after (concludeSession (Fulfilled sample_report))
          (store_after (concludeSession (Rejected e)) (started diff)))
     = Some sample_report.
Proof.
  repeat (split; [reflexivity|]). reflexivity.
Qed.


(** * Further properties of the handlers, the page and the screens *)

(** ** What [handleSendMessage] and [dispatch] can do *)

Lemma handleSendMessage_cases (s : AppState) :
  handleSendMessage s = (inr None, s, [])
  \/ (is_some (chatSession s) = true /\ isGenerating s = false
      /\ handleSendMessage s =
         (inr (Some (Suspended_end (messages s) (scenario s))),
          {| difficulty := difficulty s; scenario := scenario s;
             messages := messages s; inputValue := inputValue s;
             isGenerating := true;
             chatSession := chatSession s; finalReport := finalReport s;
             latestState := latestState s; currentPhase := currentPhase s |},
          []))
  \/ (exists chat,
        chatSession s = Some chat /\ isGenerating s = false
        /\ handleSendMessage s =
           (inr (Some (Suspended_send chat (inputValue s)
                         (messages s ++ [user_message (inputValue s)]))),
            {| difficulty := difficulty s; scenario := scenario s;
               messages := messages s ++ [user_message (inputValue s)];
               inputValue := ""; isGenerating := true;
               chatSession := chatSession s; finalReport := finalReport s;
               latestState := latestState s; currentPhase := currentPhase s |},
            [])).
Proof.
  destruct (chatSession s) as [chat|] eqn:Hc;
    [|left; apply handleSendMessage_no_session; exact Hc].
  destruct (isGenerating s) eqn:Hb;
    [left; apply handleSendMessage_busy; exact Hb|].
  destruct (all_space (inputValue s)) eqn:Hn;
    [left; apply handleSendMessage_blank; exact Hn|].
  destruct (String.eqb (toLowerCase (inputValue s)) "end interview") eqn:Hl.
  - right; left. apply String.eqb_eq in Hl.
    assert (Hc' : is_some (chatSession s) = true) by (rewrite Hc; reflexivity).
    split; [reflexivity | split; [reflexivity|]].
    rewrite (handleSendMessage_sentinel s Hc' Hb Hl).
    unfold bind, endInterview, bind, read. simpl. rewrite Hc. reflexivity.
  - right; right. apply String.eqb_neq in Hl. exists chat.
    split; [reflexivity | split; [reflexivity|]].
    rewrite (handleSendMessage_question s chat Hc Hb Hn Hl). rewrite Hc.
    reflexivity.
Qed.

(** The Send button and the Enter key do the same in every store: the
    [disabled] attribute of the button repeats the guard of the handler. *)
Theorem send_button_same_as_enter (s : AppState) :
  dispatch ClickSend s = dispatch PressEnter s.
Proof.
  unfold dispatch, render.
  destruct (finalReport s); [reflexivity|].
  destruct (difficulty s); [|reflexivity].
  destruct (isGenerating s) eqn:Hb; [|reflexivity].
  rewrite (handleSendMessage_busy s Hb). reflexivity.
Qed.

(** ** Failures that leave a half-started session *)

(** When the scenario arrives but building the chat throws (lines 33 to
    59), the scenario stays in the store while no chat and no transcript
    exist: the user is alerted, the live screen shows the scenario, and no
    text that is typed is ever sent. *)
Theorem start_sdk_failure_keeps_scenario (base : string) (diff : Difficulty)
    (sc : Scenario) (e : exn) :
  startSession base diff (Fulfilled sc) (Some e) initialState =
    (inr tt,
     {| difficulty := Some diff; scenario := Some sc; messages := [];
        inputValue := ""; isGenerating := false;
        chatSession := None; finalReport := None;
        latestState := JNull; currentPhase := InterviewPhase_RAPPORT |},
     [ConsoleError "Error starting simulation:";
      Alert "Failed to initialize simulation. Please check your connection."])
  /\ forall question,
       dispatch PressEnter
         (typed question
            (store_after (startSession base diff (Fulfilled sc) (Some e)) initialState))
       = (inr None,
          typed question
            (store_after (startSession base diff (Fulfilled sc) (Some e)) initialState),
          []).
Proof.
  split; [reflexivity|].
  intros question. unfold dispatch. cbn [render typed store_after fst snd].
  apply handleSendMessage_no_session. reflexivity.
Qed.

(** After a start that failed on [generateScenario], the End Interview
    button is on the screen, and a click on it asks for a report on an empty
    transcript with no scenario: the [scenario!] of line 112 does not hold. *)
Theorem end_click_after_failed_start (base : string) (diff : Difficulty)
    (e : exn) (sdk : SdkBehaviour) :
  let s := store_after (startSession base diff (Rejected e) sdk) initialState in
  exists s',
    dispatch ClickEndInterview s = (inr (Some (Suspended_end [] None)), s', [])
    /\ call_of (Suspended_end [] None) = generateFeedback [] None.
Proof.
  cbv zeta. eexists. split; reflexivity.
Qed.

(** ** Steps of the page *)

Lemma ui_step_cases (ev : UiEvent) (s : AppState) (pending : list Suspended) :
  (is_reload (Ui ev) (s, pending) = true
   /\ ui_step ev (s, pending) = initialConfig)
  \/ (is_reload (Ui ev) (s, pending) = false
      /\ (ui_step ev (s, pending) = (s, pending)
          \/ (exists value,
                difficulty s <> None
                /\ ui_step ev (s, pending) = (typed value s, pending))
          \/ (exists diff,
                difficulty s = None /\ isGenerating s = false
                /\ ui_step ev (s, pending)
                   = (choosing diff s, pending ++ [Suspended_start diff]))
          \/ ((ev = ClickEndInterview
               \/ (is_some (chatSession s) = true /\ isGenerating s = false))
              /\ difficulty s <> None
              /\ ui_step ev (s, pending)
                 = (set_busy true s,
                    pending ++ [Suspended_end (messages s) (scenario s)]))
          \/ (exists chat,
                ev <> ClickEndInterview
                /\ chatSession s = Some chat /\ isGenerating s = false
                /\ difficulty s <> None
                /\ ui_step ev (s, pending)
                   = (asking s,
                      pending ++ [Suspended_send chat (inputValue s)
                                    (messages s ++ [user_message (inputValue s)])])))).
Proof.
  assert (Hsend : forall d, difficulty s = Some d ->
    (match handleSendMessage s with
     | (inr (Some k), s', _) => (s', pending ++ [k])
     | (_, s', _) => (s', pending)
     end = (s, pending))
    \/ ((is_some (chatSession s) = true /\ isGenerating s = false)
        /\ match handleSendMessage s with
           | (inr (Some k), s', _) => (s', pending ++ [k])
           | (_, s', _) => (s', pending)
           end = (set_busy true s,
                  pending ++ [Suspended_end (messages s) (scenario s)]))
    \/ (exists chat,
          chatSession s = Some chat /\ isGenerating s = false
          /\ match handleSendMessage s with
             | (inr (Some k), s', _) => (s', pending ++ [k])
             | (_, s', _) => (s', pending)
             end = (asking s,
                    pending ++ [Suspended_send chat (inputValue s)
                                  (messages s ++ [user_message (inputValue s)])]))).
  { intros d Hd.
    destruct (handleSendMessage_cases s) as [E | [(Hc & Hb & E) | (chat & Hc & Hb & E)]];
      rewrite E.
    - left; reflexivity.
    - right; left. split; [split; assumption | reflexivity].
    - right; right. exists chat. repeat split; assumption || reflexivity. }
  unfold is_reload, ui_step, dispatch, render. cbn [fst].
  destruct (finalReport s) as [report|] eqn:Hr.
  - destruct ev; try (right; split; [reflexivity | left; reflexivity]).
    left. split; reflexivity.
  - destruct (difficulty s) as [d|] eqn:Hd.
    + right. split; [destruct ev; reflexivity|].
      destruct ev.
      * left; reflexivity.
      * right; left. exists value. split; [discriminate | reflexivity].
      * destruct (Hsend d eq_refl) as [E | [(Hcb & E) | (chat & Hc & Hb & E)]].
        -- left. exact E.
        -- right; right; right; left. split; [right; exact Hcb|].
           split; [discriminate | exact E].
        -- right; right; right; right. exists chat.
           repeat split; try assumption; discriminate.
      * destruct (isGenerating s) eqn:Hb; [left; reflexivity|].
        destruct (Hsend d eq_refl) as [E | [(Hcb & E) | (chat & Hc & Hb' & E)]].
        -- left. exact E.
        -- right; right; right; left. split; [right; exact Hcb|].
           split; [discriminate | exact E].
        -- right; right; right; right. exists chat.
           repeat split; try assumption; discriminate.
      * right; right; right; left. split; [left; reflexivity|].
        split; [discriminate | reflexivity].
      * left; reflexivity.
    + right. split; [destruct ev; reflexivity|].
      destruct ev; try (left; reflexivity).
      destruct (isGenerating s) eqn:Hb; [left; reflexivity|].
      right; right; left. exists diff. repeat split; reflexivity.
Qed.

Lemma startSimulation_resumed_store (base : string) (diff : Difficulty)
    (generated : Settled Scenario) (sdk : SdkBehaviour) (s : AppState) :
  store_after (startSimulation_resumed base diff generated sdk) s =
    match generated, sdk with
    | Fulfilled sc, None =>
        {| difficulty := difficulty s; scenario := Some sc;
           messages := [introduction_message sc];
           inputValue := inputValue s; isGenerating := false;
           chatSession := Some (created_chat base sc diff);
           finalReport := finalReport s;
           latestState := latestState s; currentPhase := currentPhase s |}
    | Fulfilled sc, Some _ =>
        {| difficulty := difficulty s; scenario := Some sc;
           messages := messages s;
           inputValue := inputValue s; isGenerating := false;
           chatSession := chatSession s; finalReport := finalReport s;
           latestState := latestState s; currentPhase := currentPhase s |}
    | Rejected _, _ => set_busy false s
    end.
Proof. destruct generated as [sc|e]; [destruct sdk|]; reflexivity. Qed.

Lemma endInterview_resumed_store (generated : Settled FinalReport) (s : AppState) :
  store_after (endInterview_resumed generated) s =
    match generated with
    | Fulfilled report =>
        {| difficulty := difficulty s; scenario := scenario s;
           messages := messages s;
           inputValue := inputValue s; isGenerating := false;
           chatSession := chatSession s; finalReport := Some report;
           latestState := latestState s; currentPhase := currentPhase s |}
    | Rejected _ => set_busy false s
    end.
Proof. destruct generated; reflexivity. Qed.

Lemma handleSendMessage_resumed_store (newMessages : list Message)
    (sent : Settled Response) (s : AppState) :
  store_after (handleSendMessage_resumed newMessages sent) s =
    match applied_data sent with
    | Some data =>
        {| difficulty := difficulty s; scenario := scenario s;
           messages := newMessages ++ [reply_message data];
           inputValue := inputValue s; isGenerating := false;
           chatSession := chatSession s; finalReport := finalReport s;
           latestState := property data "updatedState";
           currentPhase := property data "currentPhase" |}
    | None =>
        {| difficulty := difficulty s; scenario := scenario s;
           messages := newMessages ++ [fallback_message];
           inputValue := inputValue s; isGenerating := false;
           chatSession := chatSession s; finalReport := finalReport s;
           latestState := latestState s; currentPhase := currentPhase s |}
    end.
Proof.
  unfold store_after. rewrite handleSendMessage_resumed_spec.
  destruct (applied_data sent); reflexivity.
Qed.

Lemma settle_step_cases (base : string) (i : nat) (o : Settlement)
    (s : AppState) (pending : list Suspended) :
  settle_step base i o (s, pending) = (s, pending)
  \/ exists k h,
       nth_error pending i = Some k /\ resume base k o = Some h
       /\ settle_step base i o (s, pending)
          = (store_after h s, remove_nth i pending).
Proof.
  unfold settle_step.
  destruct (nth_error pending i) as [k|] eqn:Hk; [|left; reflexivity].
  destruct (resume base k o) as [h|] eqn:Hr; [|left; reflexivity].
  right. exists k, h. split; [reflexivity | split; [exact Hr | reflexivity]].
Qed.

(** Whatever settles, the [finally] block clears the busy flag. *)
Lemma resume_clears_busy (base : string) (k : Suspended) (o : Settlement)
    (h : Handler unit) (s : AppState) :
  resume base k o = Some h -> isGenerating (store_after h s) = false.
Proof.
  destruct k, o; simpl; intros E; inversion E; subst; clear E.
  - rewrite startSimulation_resumed_store.
    destruct generated; [destruct sdk|]; reflexivity.
  - rewrite handleSendMessage_resumed_store.
    destruct (applied_data sent); reflexivity.
  - rewrite endInterview_resumed_store. destruct generated; reflexivity.
Qed.

Lemma run_snoc (base : string) (trace : list Action) (a : Action) (c : Config) :
  run base (trace ++ [a]) c = act base a (run base trace c).
Proof. unfold run. rewrite fold_left_app. reflexivity. Qed.

Lemma remove_nth_nil {A} (i : nat) : remove_nth i (@nil A) = [].
Proof. destruct i; reflexivity. Qed.

Lemma Forall_remove_nth {A} (P : A -> Prop) (l : list A) :
  forall i, Forall P l -> Forall P (remove_nth i l).
Proof.
  induction l as [|x l IH]; intros i H.
  - rewrite remove_nth_nil. constructor.
  - inversion H; subst. destruct i as [|i].
    + assumption.
    + change (remove_nth (S i) (x :: l)) with (x :: remove_nth i l).
      constructor; [assumption | apply IH; assumption].
Qed.

Lemma forallb_remove_nth {A} (f : A -> bool) (l : list A) (i : nat) :
  forallb f l = true -> forallb f (remove_nth i l) = true.
Proof.
  rewrite !forallb_forall, <- !Forall_forall. apply Forall_remove_nth.
Qed.

(** ** The busy flag and the calls in flight *)

Lemma busy_inv_act (base : string) (a : Action) (c : Config) :
  (isGenerating (fst c) = true -> snd c <> []) ->
  isGenerating (fst (act base a c)) = true -> snd (act base a c) <> [].
Proof.
  destruct c as [s pending]. cbn [fst snd]. intros Inv.
  destruct a as [ev | i o]; cbn [act].
  - destruct (ui_step_cases ev s pending)
      as [(_ & E) | (_ & [E | [(v & _ & E) | [(d & _ & _ & E)
         | [(_ & _ & E) | (chat & _ & _ & _ & _ & E)]]]])];
      rewrite E; cbn [fst snd initialConfig];
      try (intros _; intros N; apply app_eq_nil in N; destruct N; discriminate).
    + discriminate.
    + exact Inv.
    + exact Inv.
  - destruct (settle_step_cases base i o s pending) as [E | (k & h & _ & Hr & E)];
      rewrite E; cbn [fst snd].
    + exact Inv.
    + rewrite (resume_clears_busy base k o h s Hr). discriminate.
Qed.

Lemma busy_inv_run (base : string) (trace : list Action) :
  isGenerating (fst (run base trace initialConfig)) = true ->
  snd (run base trace initialConfig) <> [].
Proof.
  induction trace as [|a trace IH] using rev_ind.
  - simpl. discriminate.
  - rewrite run_snoc. apply busy_inv_act. exact IH.
Qed.

(** Whatever the user does and however the calls settle, the busy flag is
    never left raised with nothing in flight: a raised flag (the typing
    indicator, the disabled Send button) always has a call that will clear
    it when it settles. *)
Theorem busy_flag_has_call_in_flight (base : string) (trace : list Action) :
  isGenerating (fst (run base trace initialConfig)) = true ->
  snd (run base trace initialConfig) <> []
  /\ forall i k o h,
       nth_error (snd (run base trace initialConfig)) i = Some k ->
       resume base k o = Some h ->
       isGenerating (fst (act base (Settle i o) (run base trace initialConfig)))
         = false.
Proof.
  intros Hb. split; [exact (busy_inv_run base trace Hb)|].
  intros i k o h Hk Hr.
  destruct (run base trace initialConfig) as [s pending].
  cbn [act settle_step snd] in *. rewrite Hk, Hr. cbn [fst].
  exact (resume_clears_busy base k o h s Hr).
Qed.

Lemma busy_flag_has_call_in_flight_witness :
  snd (run sample_base
         [Ui (ClickDifficulty BEGINNER);
          Settle 0 (Settle_start (Fulfilled sample_scenario) None);
          Ui (ChangeInput "Where were you?"); Ui PressEnter] initialConfig)
    <> [].
Proof.
  exact (proj1 (busy_flag_has_call_in_flight sample_base
                  [Ui (ClickDifficulty BEGINNER);
                   Settle 0 (Settle_start (Fulfilled sample_scenario) None);
                   Ui (ChangeInput "Where were you?"); Ui PressEnter] eq_refl)).
Defined.

(** ** The session once it has started *)

Lemma after_start_frame (s s' : AppState) (k : Suspended) :
  scenario s' = scenario s -> chatSession s' = chatSession s ->
  after_start s k -> after_start s' k.
Proof.
  intros Hsc Hc. destruct k; simpl; auto.
  unfold intro_first. rewrite Hsc, Hc. auto.
Qed.

Lemma session_inv_frame (s s' : AppState) (pending : list Suspended) :
  difficulty s' = difficulty s -> scenario s' = scenario s ->
  chatSession s' = chatSession s -> messages s' = messages s ->
  difficulty s <> None ->
  session_inv (s, pending) -> session_inv (s', pending).
Proof.
  intros Hd Hsc Hc Hm Hdn. unfold session_inv, intro_first. cbn [fst snd].
  rewrite Hd, Hsc, Hc, Hm.
  intros [H | (Hf & _ & Hci & Hmi)]; [left; exact H | right].
  split; [|split; [intros N; contradiction | split; assumption]].
  eapply Forall_impl; [|exact Hf].
  intros k. apply after_start_frame; assumption.
Qed.

Lemma session_inv_push_end (s s' : AppState) (pending : list Suspended)
    (msgs : list Message) (sc : option Scenario) :
  difficulty s' = difficulty s -> scenario s' = scenario s ->
  chatSession s' = chatSession s -> messages s' = messages s ->
  difficulty s <> None ->
  session_inv (s, pending) ->
  session_inv (s', pending ++ [Suspended_end msgs sc]).
Proof.
  intros Hd Hsc Hc Hm Hdn Inv.
  apply (session_inv_frame s s'); try assumption.
  revert Inv. unfold session_inv. cbn [fst snd].
  intros [(d & rest & HP & Hrest) | (Hf & Hinit & Hci & Hmi)].
  - left. exists d, (rest ++ [Suspended_end msgs sc]). subst pending.
    destruct Hrest as (H1 & H2 & H3 & H4 & H5).
    repeat split; try assumption.
    rewrite forallb_app, H5. reflexivity.
  - right. repeat split; try assumption.
    + apply Forall_app. split; [exact Hf | repeat constructor].
    + destruct (Hinit H). assumption.
    + contradiction.
Qed.

Lemma session_inv_act (base : string) (a : Action) (c : Config) :
  session_inv c -> session_inv (act base a c).
Proof.
  destruct c as [s pending]. intros Inv.
  destruct a as [ev | i o]; cbn [act].
  - destruct (ui_step_cases ev s pending)
      as [(_ & E) | (_ & [E | [(v & Hd & E) | [(d & Hd & Hb & E)
         | [(_ & Hd & E) | (chat & _ & Hc & Hb & Hd & E)]]]])];
      rewrite E; clear E.
    + right. cbn. repeat split; auto; congruence.
    + exact Inv.
    + apply (session_inv_frame s); auto.
    + destruct Inv as [(d' & rest & _ & Hd' & _) | (_ & Hinit & _)];
        cbn [fst snd] in *; [congruence|].
      destruct (Hinit Hd) as (-> & ->).
      left. exists d, []. repeat split; reflexivity.
    + apply (session_inv_push_end s); auto.
    + destruct Inv as [(d' & rest & _ & _ & _ & Hc' & _) | (Hf & Hinit & Hci & Hmi)];
        cbn [fst snd] in *; [congruence|].
      assert (Hintro : intro_first s (messages s)) by (apply Hci; congruence).
      destruct Hintro as (sc & rest & Hsc & Hm).
      assert (Hnew : intro_first (asking s) (messages s ++ [user_message (inputValue s)])).
      { exists sc, (rest ++ [user_message (inputValue s)]).
        split; [exact Hsc | rewrite Hm; reflexivity]. }
      right. cbn [fst snd]. split; [|split; [|split]].
      * apply Forall_app. split.
        -- eapply Forall_impl; [|exact Hf].
           intros k. apply after_start_frame; reflexivity.
        -- constructor; [|constructor]. split; [exact Hc | exact Hnew].
      * intros N. contradiction.
      * intros _. exact Hnew.
      * right. exact Hnew.
  - destruct (settle_step_cases base i o s pending) as [E | (k & h & Hk & Hr & E)];
      rewrite E; clear E; [exact Inv|].
    destruct Inv as [(d & rest & HP & Hd & Hsc & Hc & Hm & Hends)
                    | (Hf & Hinit & Hci & Hmi)]; cbn [fst snd] in *.
    + subst pending. destruct i as [|i].
      * simpl in Hk. inversion Hk; subst k; clear Hk.
        destruct o; simpl in Hr; try discriminate.
        inversion Hr; subst h; clear Hr.
        change (remove_nth 0 (Suspended_start d :: rest)) with rest.
        rewrite startSimulation_resumed_store.
        assert (Hrest : forall s', Forall (after_start s') rest).
        { intros s'. apply Forall_forall. intros k Hin.
          rewrite forallb_forall in Hends. specialize (Hends k Hin).
          destruct k; try discriminate. exact I. }
        right. cbn [fst snd].
        destruct generated as [sc|e]; [destruct sdk as [e|]|];
          cbn [difficulty scenario chatSession messages set_busy];
          (split; [apply Hrest | split; [congruence | split]]).
        -- intros N; congruence.
        -- left; exact Hm.
        -- intros _. exists sc, []. split; reflexivity.
        -- right. exists sc, []. split; reflexivity.
        -- intros N; congruence.
        -- left; exact Hm.
      * simpl in Hk.
        assert (Hin : In k rest) by (eapply nth_error_In; exact Hk).
        pose proof Hends as Hends'.
        rewrite forallb_forall in Hends'. specialize (Hends' k Hin).
        destruct k; try discriminate.
        destruct o; simpl in Hr; try discriminate.
        inversion Hr; subst h; clear Hr.
        rewrite endInterview_resumed_store.
        change (remove_nth (S i) (Suspended_start d :: rest))
          with (Suspended_start d :: remove_nth i rest).
        left. exists d, (remove_nth i rest). cbn [fst snd].
        destruct generated; cbn [difficulty scenario chatSession messages set_busy];
          repeat split; try assumption; apply forallb_remove_nth; exact Hends.
    + assert (Hin : In k pending) by (eapply nth_error_In; exact Hk).
      pose proof (proj1 (Forall_forall _ _) Hf k Hin) as Hk'.
      assert (Hdn : difficulty s <> None).
      { intros N. destruct (Hinit N) as (_ & HP). subst pending. contradiction. }
      destruct k as [d | chat userText newMessages | msgs sc]; [contradiction | |].
      * destruct o; simpl in Hr; try discriminate.
        inversion Hr; subst h; clear Hr.
        destruct Hk' as (Hc & (sc & rest & Hsc & Hnm)).
        rewrite handleSendMessage_resumed_store.
        right. cbn [fst snd].
        assert (Hnew : forall m s',
                   scenario s' = scenario s ->
                   intro_first s' (newMessages ++ [m])).
        { intros m s' E. exists sc, (rest ++ [m]).
          split; [congruence | rewrite Hnm; reflexivity]. }
        destruct (applied_data sent);
          cbn [difficulty scenario chatSession messages];
          (split; [|split; [intros N; contradiction | split]]);
          try (intros _; apply Hnew; reflexivity);
          try (right; apply Hnew; reflexivity);
          apply Forall_remove_nth; (eapply Forall_impl; [|exact Hf]);
          intros k; apply after_start_frame; reflexivity.
      * destruct o; simpl in Hr; try discriminate.
        inversion Hr; subst h; clear Hr.
        rewrite endInterview_resumed_store.
        assert (Hrem : session_inv (s, remove_nth i pending)).
        { right. cbn [fst snd]. repeat split; try assumption.
          - apply Forall_remove_nth; exact Hf.
          - destruct (Hinit H); assumption.
          - contradiction. }
        destruct generated;
          (eapply session_inv_frame; [| | | | exact Hdn | exact Hrem]; reflexivity).
Qed.

Lemma session_inv_run (base : string) (trace : list Action) :
  session_inv (run base trace initialConfig).
Proof.
  induction trace as [|a trace IH] using rev_ind.
  - right. cbn. repeat split; auto; congruence.
  - rewrite run_snoc. apply session_inv_act. exact IH.
Qed.

(** On every page that can be reached, the transcript is empty or begins
    with the introduction of the stored scenario; and whenever there is a
    chat (the only stores in which a question is sent), a tier and a
    scenario are stored too, so that the [scenario!] of [endInterview] holds
    there. *)
Theorem chat_session_has_scenario_and_introduction (base : string)
    (trace : list Action) :
  let s := fst (run base trace initialConfig) in
  (messages s = [] \/ intro_first s (messages s))
  /\ forall chat,
       chatSession s = Some chat ->
       exists diff sc rest,
         difficulty s = Some diff /\ scenario s = Some sc
         /\ messages s = introduction_message sc :: rest.
Proof.
  cbv zeta. pose proof (session_inv_run base trace) as Inv.
  destruct (run base trace initialConfig) as [s pending].
  destruct Inv as [(d & rest & _ & _ & _ & Hc & Hm & _) | (_ & Hinit & Hci & Hmi)];
    cbn [fst snd] in *.
  - split; [left; exact Hm | intros chat E; congruence].
  - split; [exact Hmi|]. intros chat E.
    destruct Hci as (sc & rest & Hsc & Hm); [congruence|].
    destruct (difficulty s) as [d|] eqn:Hd.
    + exists d, sc, rest. auto.
    + destruct (Hinit eq_refl) as (-> & _). discriminate.
Qed.

Lemma chat_session_has_scenario_and_introduction_witness :
  exists diff sc rest,
    difficulty (fst (run sample_base sample_trace initialConfig)) = Some diff
    /\ scenario (fst (run sample_base sample_trace initialConfig)) = Some sc
    /\ messages (fst (run sample_base sample_trace initialConfig))
       = introduction_message sc :: rest.
Proof.
  apply (proj2 (chat_session_has_scenario_and_introduction sample_base sample_trace)
           (created_chat sample_base sample_scenario INTERMEDIATE)).
  vm_compute. reflexivity.
Defined.

(** On every page that can be reached, the tier, the scenario and the chat
    are written once: whatever the user does next and however a call
    settles next, short of reloading the page, each of them stays what it
    is once it is set. *)
Theorem session_data_is_written_once (base : string) (trace : list Action)
    (a : Action) :
  let c := run base trace initialConfig in
  is_reload a c = false ->
  (forall diff, difficulty (fst c) = Some diff ->
                difficulty (fst (act base a c)) = Some diff)
  /\ (forall sc, scenario (fst c) = Some sc ->
                 scenario (fst (act base a c)) = Some sc)
  /\ (forall chat, chatSession (fst c) = Some chat ->
                   chatSession (fst (act base a c)) = Some chat).
Proof.
  cbv zeta. pose proof (session_inv_run base trace) as Inv.
  destruct (run base trace initialConfig) as [s pending]. intros Hre.
  destruct a as [ev | i o]; cbn [act].
  - destruct (ui_step_cases ev s pending)
      as [(R & _) | (_ & [E | [(v & Hd & E) | [(d & Hd & Hb & E)
         | [(_ & Hd & E) | (chat & _ & Hc & Hb & Hd & E)]]]])];
      [congruence | | | | |]; rewrite E; clear E; cbn [fst]; auto.
    destruct Inv as [(d' & rest & _ & Hd' & _) | (_ & Hinit & _)];
      cbn [fst snd] in *; [congruence|].
    destruct (Hinit Hd) as (-> & _).
    repeat split; intros x E; discriminate E.
  - destruct (settle_step_cases base i o s pending) as [E | (k & h & Hk & Hr & E)];
      rewrite E; clear E; cbn [fst]; [auto|].
    destruct k as [d | chat userText newMessages | msgs sc];
      destruct o; simpl in Hr; try discriminate;
      inversion Hr; subst h; clear Hr.
    + rewrite startSimulation_resumed_store.
      destruct Inv as [(d' & rest & _ & Hd' & Hsc & Hc & _) | (Hf & _)];
        cbn [fst snd] in *.
      * rewrite Hsc, Hc.
        destruct generated; [destruct sdk|];
          repeat split; intros x E; (discriminate E || exact E).
      * pose proof (proj1 (Forall_forall _ _) Hf _ (nth_error_In _ _ Hk)) as F.
        contradiction.
    + rewrite handleSendMessage_resumed_store.
      destruct (applied_data sent); auto.
    + rewrite endInterview_resumed_store. destruct generated; auto.
Qed.

Lemma session_data_is_written_once_witness :
  scenario
    (fst (act sample_base (Ui ClickEndInterview)
            (run sample_base
               [Ui (ClickDifficulty CRISIS);
                Settle 0 (Settle_start (Fulfilled sample_scenario) None)]
               initialConfig)))
    = Some sample_scenario.
Proof.
  exact (proj1 (proj2 (session_data_is_written_once sample_base
                         [Ui (ClickDifficulty CRISIS);
                          Settle 0 (Settle_start (Fulfilled sample_scenario) None)]
                         (Ui ClickEndInterview) eq_refl))
           sample_scenario eq_refl).
Defined.

(** ** The report screen *)

Lemma resume_keeps_report (base : string) (k : Suspended) (o : Settlement)
    (h : Handler unit) (s : AppState) :
  resume base k o = Some h ->
  is_some (finalReport s) = true ->
  is_some (finalReport (store_after h s)) = true.
Proof.
  destruct k, o; simpl; intros E; inversion E; subst; clear E; intros Hr.
  - rewrite startSimulation_resumed_store.
    destruct generated; [destruct sdk|]; exact Hr.
  - rewrite handleSendMessage_resumed_store.
    destruct (applied_data sent); exact Hr.
  - rewrite endInterview_resumed_store. destruct generated; [reflexivity | exact Hr].
Qed.

(** Once a report is stored the session is over.  The report screen is
    shown; on it no event but Start New Session does anything at all (no
    store change, no call); that event reloads the page; and no call that
    settles afterwards takes the report away, so the page stays Concluded
    until it is reloaded. *)
Theorem concluded_until_reload (base : string) (report : FinalReport)
    (c : Config) :
  finalReport (fst c) = Some report ->
  render (fst c) = FinalReportView report
  /\ (forall ev, ev <> ClickStartNewSession ->
                 dispatch ev (fst c) = (inr None, fst c, []))
  /\ act base (Ui ClickStartNewSession) c = initialConfig
  /\ (forall a, is_reload a c = false ->
                machine_state (fst (act base a c)) = Concluded).
Proof.
  destruct c as [s pending]. cbn [fst]. intros Hr.
  assert (Hscreen : render s = FinalReportView report)
    by (unfold render; rewrite Hr; reflexivity).
  split; [exact Hscreen | split; [|split]].
  - intros ev Hev. unfold dispatch. rewrite Hscreen.
    destruct ev; try reflexivity. contradiction.
  - cbn [act ui_step]. rewrite Hscreen. reflexivity.
  - intros a Hre.
    assert (Hkeep : is_some (finalReport (fst (act base a (s, pending)))) = true).
    { destruct a as [ev | i o]; cbn [act].
      - destruct (ui_step_cases ev s pending)
          as [(R & _) | (_ & [E | [(v & Hd & E) | [(d & Hd & Hb & E)
             | [(_ & Hd & E) | (chat & _ & Hc & Hb & Hd & E)]]]])];
          [congruence | | | | |]; rewrite E; cbn [fst]; simpl; rewrite Hr; reflexivity.
      - destruct (settle_step_cases base i o s pending) as [E | (k & h & Hk & Hres & E)];
          rewrite E; cbn [fst]; [rewrite Hr; reflexivity|].
        apply (resume_keeps_report base k o h s Hres). rewrite Hr. reflexivity. }
    unfold machine_state, render.
    destruct (finalReport (fst (act base a (s, pending)))); [reflexivity | discriminate].
Qed.

Lemma concluded_until_reload_witness :
  machine_state
    (fst (act sample_base (Ui (ChangeInput "one more question"))
            (run sample_base sample_trace initialConfig)))
    = Concluded.
Proof.
  assert (Hr : finalReport (fst (run sample_base sample_trace initialConfig))
               = Some sample_report) by (vm_compute; reflexivity).
  apply (proj2 (proj2 (proj2 (concluded_until_reload sample_base sample_report
           (run sample_base sample_trace initialConfig) Hr)))
           (Ui (ChangeInput "one more question"))).
  vm_compute. reflexivity.
Defined.

(** ** Serial sessions: everything but the End Interview button *)

Lemma roles_alternate_snoc (msgs : list Message) :
  forall (r : Role) (m : Message),
    roles_alternate r msgs = true ->
    role m = (if Nat.even (length msgs) then r
              else match r with user => model | model => user end) ->
    roles_alternate r (msgs ++ [m]) = true.
Proof.
  induction msgs as [|m0 rest IH]; intros r m Halt Hrole.
  - simpl in *. rewrite Hrole. destruct r; reflexivity.
  - cbn [app roles_alternate] in *.
    change (length (m0 :: rest)) with (S (length rest)) in Hrole.
    rewrite Nat.even_succ in Hrole. unfold Nat.odd in Hrole.
    destruct r, (role m0); try discriminate; apply IH; try assumption;
      destruct (Nat.even (length rest)); exact Hrole.
Qed.

Lemma last_hiddenState_snoc (msgs : list Message) (m : Message) :
  last_hiddenState (msgs ++ [m]) =
    match hiddenState m with
    | Some v => Some v
    | None => last_hiddenState msgs
    end.
Proof.
  induction msgs as [|m0 rest IH]; simpl.
  - destruct (hiddenState m); reflexivity.
  - rewrite IH. destruct (hiddenState m); reflexivity.
Qed.

Lemma last_phase_snoc (msgs : list Message) (m : Message) :
  last_phase (msgs ++ [m]) =
    match phase m with
    | Some v => Some v
    | None => last_phase msgs
    end.
Proof.
  induction msgs as [|m0 rest IH]; simpl.
  - destruct (phase m); reflexivity.
  - rewrite IH. destruct (phase m); reflexivity.
Qed.

Lemma length_snoc_even {A} (l : list A) (x : A) :
  Nat.even (length (l ++ [x])) = Nat.odd (length l).
Proof. rewrite length_app, Nat.add_1_r. apply Nat.even_succ. Qed.

Lemma length_snoc_odd {A} (l : list A) (x : A) :
  Nat.odd (length (l ++ [x])) = Nat.even (length l).
Proof. rewrite length_app, Nat.add_1_r. apply Nat.odd_succ. Qed.

Lemma serial_inv_initial : serial_inv initialConfig.
Proof.
  unfold serial_inv. cbn. repeat split; try congruence.
  left. repeat split; auto. left; reflexivity.
Qed.

Lemma serial_inv_frame (s s' : AppState) (pending : list Suspended) :
  difficulty s' = difficulty s -> chatSession s' = chatSession s ->
  messages s' = messages s -> isGenerating s' = isGenerating s ->
  latestState s' = latestState s -> currentPhase s' = currentPhase s ->
  difficulty s <> None ->
  serial_inv (s, pending) -> serial_inv (s', pending).
Proof.
  intros Hd Hc Hm Hb Hl Hp Hdn. unfold serial_inv. cbn [fst snd].
  rewrite Hd, Hc, Hm, Hb, Hl, Hp.
  intros (H1 & H2 & H3 & H4 & H5). repeat split; try assumption.
  destruct H5 as [(HP & Hi & Hbt & _) | H5]; [|right; exact H5].
  left. repeat split; try assumption. intros N. contradiction.
Qed.

Lemma serial_inv_act (base : string) (a : Action) (c : Config) :
  is_end_click a = false -> serial_inv c -> serial_inv (act base a c).
Proof.
  destruct c as [s pending]. intros Hclick Inv.
  destruct a as [ev | i o]; cbn [act].
  - destruct (ui_step_cases ev s pending)
      as [(_ & E) | (_ & [E | [(v & Hd & E) | [(d & Hd & Hb & E)
         | [(Hvia & Hd & E) | (chat & _ & Hc & Hb & Hd & E)]]]])];
      rewrite E; clear E.
    + exact serial_inv_initial.
    + exact Inv.
    + apply (serial_inv_frame s); auto.
    + destruct Inv as (_ & _ & _ & _ & [(HP & _ & _ & Hinit) | [H | [H | H]]]);
        cbn [fst snd] in *.
      * rewrite (Hinit Hd), HP. unfold serial_inv. cbn.
        repeat split; try congruence.
        right; left. exists d. repeat split; congruence.
      * destruct H as (? & _ & _ & N & _); contradiction.
      * destruct H as (? & ? & ? & _ & _ & N & _); contradiction.
      * destruct H as (? & ? & _ & _ & N & _); contradiction.
    + destruct Hvia as [-> | (_ & Hb)]; [discriminate Hclick|].
      destruct Inv as (H1 & H2 & H3 & H4 & [(HP & _ & Hbt & _) | [H | [H | H]]]);
        cbn [fst snd] in *.
      * subst pending. unfold serial_inv. cbn [fst snd set_busy messages latestState
          currentPhase chatSession isGenerating difficulty app].
        repeat split; try assumption.
        right; right; right. exists (messages s), (scenario s).
        repeat split; assumption.
      * destruct H as (? & _ & N & _); congruence.
      * destruct H as (? & ? & ? & _ & N & _); congruence.
      * destruct H as (? & ? & _ & N & _); congruence.
    + destruct Inv as (H1 & H2 & H3 & H4 & [(HP & _ & Hbt & _) | [H | [H | H]]]);
        cbn [fst snd] in *.
      * subst pending.
        assert (Hne : messages s <> []) by (apply H4; congruence).
        destruct Hbt as [N | Hodd]; [contradiction|].
        unfold serial_inv. cbn [fst snd asking messages latestState
          currentPhase chatSession isGenerating difficulty app].
        rewrite last_hiddenState_snoc, last_phase_snoc. cbn [user_message hiddenState phase].
        split; [|split; [exact H2 | split; [exact H3 | split]]].
        -- apply roles_alternate_snoc; [exact H1|].
           unfold Nat.odd in Hodd. destruct (Nat.even (length (messages s)));
             [discriminate | reflexivity].
        -- intros _ N. apply app_eq_nil in N. destruct N; discriminate.
        -- right; right; left.
           exists chat, (inputValue s), (messages s ++ [user_message (inputValue s)]).
           repeat split; try assumption.
           rewrite length_snoc_even. exact Hodd.
      * destruct H as (? & _ & N & _); congruence.
      * destruct H as (? & ? & ? & _ & N & _); congruence.
      * destruct H as (? & ? & _ & N & _); congruence.
  - destruct (settle_step_cases base i o s pending) as [E | (k & h & Hk & Hr & E)];
      rewrite E; clear E; [exact Inv|].
    destruct Inv as (H1 & H2 & H3 & H4 & Hcase). cbn [fst snd] in *.
    assert (Hone : forall k0, pending = [k0] -> k = k0 /\ remove_nth i pending = []).
    { intros k0 ->. destruct i as [|i]; simpl in Hk.
      - inversion Hk. split; reflexivity.
      - destruct i; discriminate Hk. }
    destruct Hcase as [(HP & _) | [(d & HP & Hb & Hd & Hc & Hm)
      | [(chat & userText & nm & HP & Hb & Hd & Hm & Heven)
      | (msgs & sc & HP & Hb & Hd & Hbt)]]].
    + subst pending. destruct i; discriminate Hk.
    + destruct (Hone _ HP) as (-> & ->).
      destruct o; simpl in Hr; try discriminate.
      inversion Hr; subst h; clear Hr.
      rewrite startSimulation_resumed_store.
      rewrite Hm in H2, H3. simpl in H2, H3.
      unfold serial_inv.
      destruct generated as [sc0|e]; [destruct sdk as [e|]|];
        cbn [fst snd set_busy messages latestState currentPhase chatSession
             isGenerating difficulty last_hiddenState last_phase
             introduction_message hiddenState phase or_else roles_alternate role];
        rewrite ?Hm; cbn [last_hiddenState last_phase or_else roles_alternate];
        (split; [reflexivity | split; [exact H2 | split; [exact H3 | split]]]);
        try (intros N; congruence);
        try (intros _; discriminate);
        left; repeat split; try (intros N; contradiction);
        try (left; reflexivity); right; reflexivity.
    + destruct (Hone _ HP) as (-> & ->).
      destruct o; simpl in Hr; try discriminate.
      inversion Hr; subst h; clear Hr.
      rewrite handleSendMessage_resumed_store. subst nm.
      assert (Hrole : forall m, role m = model ->
                roles_alternate model (messages s ++ [m]) = true).
      { intros m Hm. apply roles_alternate_snoc; [exact H1|].
        rewrite Heven. exact Hm. }
      unfold serial_inv.
      destruct (applied_data sent) as [data|];
        cbn [fst snd messages latestState currentPhase chatSession
             isGenerating difficulty];
        rewrite last_hiddenState_snoc, last_phase_snoc;
        cbn [reply_message fallback_message hiddenState phase or_else];
        (split; [apply Hrole; reflexivity
                | split; [first [reflexivity | exact H2]
                | split; [first [reflexivity | exact H3] | split]]]);
        try (intros _ N; apply app_eq_nil in N; destruct N; discriminate);
        left; repeat split; try (intros N; contradiction);
        right; rewrite length_snoc_odd; exact Heven.
    + destruct (Hone _ HP) as (-> & ->).
      destruct o; simpl in Hr; try discriminate.
      inversion Hr; subst h; clear Hr.
      rewrite endInterview_resumed_store.
      unfold serial_inv.
      destruct generated;
        cbn [fst snd set_busy messages latestState currentPhase chatSession
             isGenerating difficulty];
        repeat split; try assumption;
        left; repeat split; try assumption; intros N; contradiction.
Qed.

Lemma serial_inv_run (base : string) (trace : list Action) :
  existsb is_end_click trace = false ->
  serial_inv (run base trace initialConfig).
Proof.
  induction trace as [|a trace IH] using rev_ind; intros H.
  - exact serial_inv_initial.
  - rewrite existsb_app in H. apply orb_false_iff in H. destruct H as (Ht & Ha).
    simpl in Ha. rewrite orb_false_r in Ha.
    rewrite run_snoc. apply serial_inv_act; [exact Ha | exact (IH Ht)].
Qed.

(** In a session in which the End Interview button is never clicked (the
    report may still be asked for by typing the reserved literal), at most
    one call is in flight at any time, and the busy flag is raised exactly
    while one is. *)
Theorem serial_session_has_one_call_in_flight (base : string)
    (trace : list Action) :
  existsb is_end_click trace = false ->
  length (snd (run base trace initialConfig)) <= 1
  /\ (isGenerating (fst (run base trace initialConfig)) = true
      <-> snd (run base trace initialConfig) <> []).
Proof.
  intros H. pose proof (serial_inv_run base trace H) as Inv.
  destruct (run base trace initialConfig) as [s pending].
  destruct Inv as (_ & _ & _ & _ & [(HP & Hb & _) | [(d & HP & Hb & _)
    | [(chat & userText & nm & HP & Hb & _) | (msgs & sc & HP & Hb & _)]]]);
    cbn [fst snd] in *; subst pending; rewrite Hb; simpl;
    (split; [lia | split; intros N; congruence]).
Qed.

Lemma serial_session_has_one_call_in_flight_witness :
  length (snd (run sample_base sample_trace initialConfig)) <= 1.
Proof.
  exact (proj1 (serial_session_has_one_call_in_flight sample_base sample_trace
                  eq_refl)).
Defined.

(** In such a session the transcript alternates between the witness and the
    interviewer, beginning with the witness; between turns it is empty or
    ends with a message of the witness (its length is odd), and while a
    question is in flight it is the transcript the handler sent, which ends
    with that question (its length is even). *)
Theorem serial_transcript_alternates (base : string) (trace : list Action) :
  existsb is_end_click trace = false ->
  let s := fst (run base trace initialConfig) in
  roles_alternate model (messages s) = true
  /\ (isGenerating s = false ->
      messages s = [] \/ Nat.odd (length (messages s)) = true)
  /\ (forall chat userText newMessages,
        In (Suspended_send chat userText newMessages)
           (snd (run base trace initialConfig)) ->
        messages s = newMessages /\ Nat.even (length newMessages) = true).
Proof.
  intros H. cbv zeta. pose proof (serial_inv_run base trace H) as Inv.
  destruct (run base trace initialConfig) as [s pending].
  destruct Inv as (Halt & _ & _ & _ & [(HP & Hb & Hbt & _) | [(d & HP & Hb & _ & _ & Hm)
    | [(chat & userText & nm & HP & Hb & _ & Hm & Heven) | (msgs & sc & HP & Hb & _ & Hbt)]]]);
    cbn [fst snd] in *; subst pending;
    (split; [exact Halt | split]);
    try (intros _; assumption);
    try (intros N; congruence);
    try (intros c t n [Hin | []]; try discriminate Hin);
    try (intros c t n []).
  inversion Hin; subst. split; [reflexivity | exact Heven].
Qed.

Lemma serial_transcript_alternates_witness :
  roles_alternate model
    (messages (fst (run sample_base sample_trace initialConfig))) = true.
Proof.
  exact (proj1 (serial_transcript_alternates sample_base sample_trace eq_refl)).
Defined.

(** In such a session the latest state and the current phase can be read
    off the transcript: they are the snapshot on the most recent message
    that carries one, and the initial values ([null] and the first phase)
    while no message does.  A fallback message carries none and leaves
    both as they were. *)
Theorem serial_state_is_last_snapshot (base : string) (trace : list Action) :
  existsb is_end_click trace = false ->
  let s := fst (run base trace initialConfig) in
  latestState s = or_else (last_hiddenState (messages s)) JNull
  /\ currentPhase s = or_else (last_phase (messages s)) InterviewPhase_RAPPORT.
Proof.
  intros H. cbv zeta. pose proof (serial_inv_run base trace H) as Inv.
  destruct (run base trace initialConfig) as [s pending].
  destruct Inv as (_ & Hl & Hp & _). split; assumption.
Qed.

Lemma serial_state_is_last_snapshot_witness :
  latestState (fst (run sample_base sample_trace initialConfig))
    = or_else (last_hiddenState
                 (messages (fst (run sample_base sample_trace initialConfig))))
        JNull.
Proof.
  exact (proj1 (serial_state_is_last_snapshot sample_base sample_trace eq_refl)).
Defined.

(** In such a session the transcript is append-only: whatever happens next
    (any event but a click on End Interview or a reload, or any call that
    settles), the transcript from before is a prefix of the transcript
    after. *)
Theorem serial_transcript_is_append_only (base : string) (trace : list Action)
    (a : Action) :
  existsb is_end_click trace = false -> is_end_click a = false ->
  is_reload a (run base trace initialConfig) = false ->
  exists suffix,
    messages (fst (act base a (run base trace initialConfig)))
      = messages (fst (run base trace initialConfig)) ++ suffix.
Proof.
  intros H Hclick. pose proof (serial_inv_run base trace H) as Inv.
  destruct (run base trace initialConfig) as [s pending]. intros Hre.
  destruct a as [ev | i o]; cbn [act].
  - destruct (ui_step_cases ev s pending)
      as [(R & _) | (_ & [E | [(v & Hd & E) | [(d & Hd & Hb & E)
         | [(_ & Hd & E) | (chat & _ & Hc & Hb & Hd & E)]]]])];
      [congruence | | | | |]; rewrite E; clear E; cbn [fst].
    + exists []. rewrite app_nil_r. reflexivity.
    + exists []. rewrite app_nil_r. reflexivity.
    + exists []. rewrite app_nil_r. reflexivity.
    + exists []. rewrite app_nil_r. reflexivity.
    + exists [user_message (inputValue s)]. reflexivity.
  - destruct (settle_step_cases base i o s pending) as [E | (k & h & Hk & Hr & E)];
      rewrite E; clear E; cbn [fst];
      [exists []; rewrite app_nil_r; reflexivity|].
    destruct Inv as (_ & _ & _ & _ & Hcase). cbn [fst snd] in *.
    assert (Hone : forall k0, pending = [k0] -> k = k0).
    { intros k0 ->. destruct i as [|i]; simpl in Hk.
      - inversion Hk. reflexivity.
      - destruct i; discriminate Hk. }
    destruct Hcase as [(HP & _) | [(d & HP & Hb & Hd & Hc & Hm)
      | [(chat & userText & nm & HP & Hb & Hd & Hm & Heven)
      | (msgs & sc & HP & Hb & Hd & Hbt)]]].
    + subst pending. destruct i; discriminate Hk.
    + rewrite (Hone _ HP) in Hr.
      destruct o; simpl in Hr; try discriminate.
      inversion Hr; subst h; clear Hr.
      rewrite startSimulation_resumed_store, Hm.
      eexists. cbn [app]. reflexivity.
    + rewrite (Hone _ HP) in Hr.
      destruct o; simpl in Hr; try discriminate.
      inversion Hr; subst h; clear Hr.
      rewrite handleSendMessage_resumed_store, Hm.
      destruct (applied_data sent); eexists; reflexivity.
    + rewrite (Hone _ HP) in Hr.
      destruct o; simpl in Hr; try discriminate.
      inversion Hr; subst h; clear Hr.
      rewrite endInterview_resumed_store.
      exists []. rewrite app_nil_r. destruct generated; reflexivity.
Qed.

Lemma serial_transcript_is_append_only_witness :
  exists suffix,
    messages (fst (act sample_base (Settle 0 (Settle_send (Rejected (Rejection "timeout"))))
                     (run sample_base
                        [Ui (ClickDifficulty ADVANCED);
                         Settle 0 (Settle_start (Fulfilled sample_scenario) None);
                         Ui (ChangeInput "Who signed it?"); Ui ClickSend]
                        initialConfig)))
      = messages (fst (run sample_base
                         [Ui (ClickDifficulty ADVANCED);
                          Settle 0 (Settle_start (Fulfilled sample_scenario) None);
                          Ui (ChangeInput "Who signed it?"); Ui ClickSend]
                         initialConfig)) ++ suffix.
Proof.
  exact (serial_transcript_is_append_only sample_base
           [Ui (ClickDifficulty ADVANCED);
            Settle 0 (Settle_start (Fulfilled sample_scenario) None);
            Ui (ChangeInput "Who signed it?"); Ui ClickSend]
           (Settle 0 (Settle_send (Rejected (Rejection "timeout"))))
           eq_refl eq_refl eq_refl).
Defined.

(** ** The screens *)

Lemma message_bubble_redact (m : Message) :
  message_bubble (redact_message m) = message_bubble m.
Proof. unfold message_bubble, redact_message. simpl. destruct (role m); reflexivity. Qed.

(** The live interview screen shows nothing of what is hidden: it is the
    same for a store and for the store with the snapshots on the messages,
    the latest state, the chat (with its system instruction), the archetype
    and the hidden ground truth and risk nodes of the scenario removed. *)
Theorem live_screen_shows_nothing_hidden (s : AppState) :
  live_view (redact s) = live_view s.
Proof.
  unfold live_view, redact. cbn [difficulty scenario messages inputValue
    isGenerating currentPhase].
  rewrite map_map. rewrite (map_ext _ _ message_bubble_redact).
  destruct (scenario s); reflexivity.
Qed.

(** The bar of a metric card is green above 75, yellow above 50 up to 75
    and red up to 50, so a higher score never gets a worse colour; the
    width of the bar is the score itself, with no clamping to 0..100. *)
Theorem metric_bar_colour_is_monotone (label : string) (a b : Z) :
  (a <= b)%Z ->
  bar_rank (bar_class a) <= bar_rank (bar_class b)
  /\ (bar_class a = "bg-green-500" <-> (75 < a)%Z)
  /\ (bar_class a = "bg-red-500" <-> (a <= 50)%Z)
  /\ card_bar_width (metric_card label a) = a.
Proof.
  intros Hab. unfold bar_class.
  destruct (Z.ltb_spec 75 a), (Z.ltb_spec 50 a),
           (Z.ltb_spec 75 b), (Z.ltb_spec 50 b);
    try lia; cbv [bar_rank String.eqb Ascii.eqb Bool.eqb card_bar_width metric_card];
    repeat split; intros; try lia; try congruence.
Qed.

Lemma metric_bar_colour_is_monotone_witness :
  bar_rank (bar_class 50) <= bar_rank (bar_class 76).
Proof.
  exact (proj1 (metric_bar_colour_is_monotone "Interview Control" 50 76
                  ltac:(lia))).
Defined.

(** ** The system instruction *)

(** When the generated scenario lacks the two hidden fields, the system
    instruction of the chat tells the model that the ground truth and the
    risk nodes are "undefined". *)
Theorem system_prompt_of_missing_hidden_fields (base : string) (sc : Scenario)
    (diff : Difficulty) :
  hiddenGroundTruth sc = None -> keyRiskNodes sc = None ->
  exists before after,
    systemPrompt base sc diff =
      (before ++ "Ground Truth (HIDDEN FROM USER): undefined" ++ nl
       ++ "        Risk Nodes: undefined" ++ nl ++ after)%string.
Proof.
  intros Hg Hk.
  exists (nl ++
     "        " ++ base ++ nl ++
     "        " ++ nl ++
     "        SCENARIO CONTEXT:" ++ nl ++
     "        Type: " ++ investigationType sc ++ nl ++
     "        Company: " ++ companyBackground sc ++ nl ++
     "        Jurisdiction: " ++ jurisdiction sc ++ nl ++
     "        Exposure: " ++ regulatoryExposure sc ++ nl ++
     "        Witness Role: " ++ witnessRole sc ++ nl ++
     "        Witness Archetype: " ++ witnessArchetype sc ++ nl ++
     "        ")%string.
  exists ("        " ++ nl ++
     "        DIFFICULTY LEVEL: " ++ Difficulty_value diff ++ nl ++
     "        " ++ nl ++
     INITIAL_STATE_LINES ++
     "      ")%string.
  unfold systemPrompt. rewrite Hg, Hk. cbn [interpolate option_map].
  repeat rewrite JsStringFacts.append_assoc. reflexivity.
Qed.

Lemma system_prompt_of_missing_hidden_fields_witness :
  exists before after,
    systemPrompt sample_base bare_scenario BEGINNER =
      (before ++ "Ground Truth (HIDDEN FROM USER): undefined" ++ nl
       ++ "        Risk Nodes: undefined" ++ nl ++ after)%string.
Proof.
  exact (system_prompt_of_missing_hidden_fields sample_base bare_scenario BEGINNER
           eq_refl eq_refl).
Defined.
